(** * A shallow embedding of the repository security scanner

    This development models [src/code/scanner/scanner.py]: the downloader
    ([RepoDownloader.download_repo], [_download_with_curl], [download_all]),
    the scanner ([RepoSecurityScanner.__init__]'s thresholds, [extract_repo],
    [find_skill_dirs], [_is_skill_dir], [calculate_repo_risk], [scan_repo],
    [_generate_report], [scan_all], [_extract_number]), and the parts of
    [src/code/utils/config_loader.py] they call ([Config._load], [Config.get],
    [Config.get_with_env_fallback], [Paths.get_risk_dir]).

    The scanner is written against the file system and external processes.
    These are modelled as an environment record giving, for each repository,
    what the file system and the analyzer answer; the scanner threads its
    statistics and a log of file-system effects through a small state and
    error monad. *)

From Stdlib Require Import List String Ascii Bool Arith Lia ZArith QArith Permutation Sorted.
Import ListNotations.
Open Scope string_scope.
Open Scope list_scope.
Open Scope nat_scope.

(* ------------------------------------------------------------------ *)
(** ** Risk levels and the priority table *)

(** The string keys of [RISK_PRIORITY], in the dict's insertion order. *)
Inductive RiskLevel := CRITICAL | HIGH | MEDIUM | LOW | SAFE | UNKNOWN.

Definition risk_name (r : RiskLevel) : string :=
  match r with
  | CRITICAL => "CRITICAL" | HIGH => "HIGH" | MEDIUM => "MEDIUM"
  | LOW => "LOW" | SAFE => "SAFE" | UNKNOWN => "UNKNOWN"
  end.

(** [RISK_PRIORITY]. *)
Definition RISK_PRIORITY (r : RiskLevel) : nat :=
  match r with
  | CRITICAL => 5 | HIGH => 4 | MEDIUM => 3 | LOW => 2 | SAFE => 1 | UNKNOWN => 0
  end.

(** Iteration order of [RISK_PRIORITY.keys()] (and so of [risk_counts]). *)
Definition risk_keys : list RiskLevel := [CRITICAL; HIGH; MEDIUM; LOW; SAFE; UNKNOWN].

(** [risk_level in self.RISK_PRIORITY] on a string, with the key found. *)
Definition risk_of_name (s : string) : option RiskLevel :=
  find (fun r => String.eqb (risk_name r) s) risk_keys.

Definition risk_eqb (a b : RiskLevel) : bool := Nat.eqb (RISK_PRIORITY a) (RISK_PRIORITY b).

(** A dict with one integer per risk level, as [risk_counts] and [by_risk]. *)
Record Counts := mkCounts {
  c_critical : nat; c_high : nat; c_medium : nat;
  c_low : nat; c_safe : nat; c_unknown : nat }.

Definition counts0 : Counts := mkCounts 0 0 0 0 0 0.

Definition cget (c : Counts) (r : RiskLevel) : nat :=
  match r with
  | CRITICAL => c_critical c | HIGH => c_high c | MEDIUM => c_medium c
  | LOW => c_low c | SAFE => c_safe c | UNKNOWN => c_unknown c
  end.

(** [d[r] += 1]. *)
Definition cincr (c : Counts) (r : RiskLevel) : Counts :=
  let '(mkCounts a b m l s u) := c in
  match r with
  | CRITICAL => mkCounts (S a) b m l s u
  | HIGH => mkCounts a (S b) m l s u
  | MEDIUM => mkCounts a b (S m) l s u
  | LOW => mkCounts a b m (S l) s u
  | SAFE => mkCounts a b m l (S s) u
  | UNKNOWN => mkCounts a b m l s (S u)
  end.

(* ------------------------------------------------------------------ *)
(** ** Skill reports and the risk aggregator *)

(** A finding is kept as the JSON text the analyzer emitted; only the
    number of findings matters to the scanner. *)
Definition Finding := string.

(** The analyzer's JSON report.  Its contract guarantees the three keys
    [risk_score], [findings] and [total_files], so the report dict is never
    empty: the guard [if not report: continue] never fires and the [.get]
    defaults are never used.  [risk_score] is a JSON number (an int or a
    finite float), modelled as a rational. *)
Record SkillReport := mkSkillReport {
  risk_score : Q;
  findings : list Finding;
  total_files : Z }.

(** [self.thresholds]. *)
Record Thresholds := mkThresholds {
  t_critical : Q; t_high : Q; t_medium : Q; t_low : Q }.

(** The default configuration ([config.get(..., 8)] etc.). *)
Definition default_thresholds : Thresholds := mkThresholds 8 6 4 2.

(** The [if/elif] ladder of [calculate_repo_risk]. *)
Definition classify (th : Thresholds) (risk_score : Q) : RiskLevel :=
  if Qle_bool (t_critical th) risk_score then CRITICAL
  else if Qle_bool (t_high th) risk_score then HIGH
  else if Qle_bool (t_medium th) risk_score then MEDIUM
  else if Qle_bool (t_low th) risk_score then LOW
  else SAFE.

(** The second component of [calculate_repo_risk]'s result. *)
Inductive Summary :=
| SumReason (reason : string)
| SumCounts (risk_counts : Counts) (total_skills : nat) (total_issues : nat).

(** The [for report in skill_reports] loop: [(risk_counts, total_issues)]. *)
Definition count_step (th : Thresholds) (acc : Counts * nat) (report : SkillReport)
  : Counts * nat :=
  let '(risk_counts, total_issues) := acc in
  (cincr risk_counts (classify th (risk_score report)),
   (total_issues + List.length (findings report))%nat).

(** The [for risk, count in risk_counts.items()] loop: [(max_priority, repo_risk)]. *)
Definition max_step (risk_counts : Counts) (acc : nat * RiskLevel) (risk : RiskLevel)
  : nat * RiskLevel :=
  let '(max_priority, repo_risk) := acc in
  if 0 <? cget risk_counts risk then
    let priority := RISK_PRIORITY risk in
    if max_priority <? priority then (priority, risk) else (max_priority, repo_risk)
  else (max_priority, repo_risk).

(** [RepoSecurityScanner.calculate_repo_risk]. *)
Definition calculate_repo_risk (th : Thresholds) (skill_reports : list SkillReport)
  : RiskLevel * Summary :=
  match skill_reports with
  | [] => (UNKNOWN, SumReason "No skills scanned")
  | _ =>
    let '(risk_counts, total_issues) :=
      fold_left (count_step th) skill_reports (counts0, 0) in
    let '(_, repo_risk) := fold_left (max_step risk_counts) risk_keys (0, UNKNOWN) in
    (repo_risk, SumCounts risk_counts (List.length skill_reports) total_issues)
  end.

(* ------------------------------------------------------------------ *)
(** ** Repository trees and skill discovery *)

Set Warnings "-register-all".

(** A directory tree as [pathlib] walks it: files and directories by name. *)
Inductive tree :=
| File (name : string)
| Dir (name : string) (children : list tree).

Definition entry_name (t : tree) : string :=
  match t with File n => n | Dir n _ => n end.

Definition is_dir (t : tree) : bool :=
  match t with File _ => false | Dir _ _ => true end.

(** [(path / f).exists()] for a directory [path]: some entry (file or
    directory) named [f] sits directly in it. *)
Definition child_exists (t : tree) (f : string) : bool :=
  match t with
  | File _ => false
  | Dir _ cs => existsb (fun c => String.eqb (entry_name c) f) cs
  end.

(** [indicators] of [_is_skill_dir]. *)
Definition indicators : list string := ["SKILL.md"; "skill.json"; "api.json"; "tool.json"].

(** [RepoSecurityScanner._is_skill_dir]. *)
Definition _is_skill_dir (t : tree) : bool :=
  existsb (child_exists t) indicators.

(** A path relative to the repository root, one name per component. *)
Definition relpath := list string.

(** [repo_path.rglob('*')]: every entry strictly below the given directory,
    with its path; the directory itself is not yielded, and a plain file
    yields nothing.  [pathlib] lists entries in the order [os.scandir]
    returns them, which the file system decides; this model fixes one order,
    and no property below depends on it. *)
Fixpoint rglob (prefix : relpath) (t : tree) : list (relpath * tree) :=
  match t with
  | File _ => []
  | Dir _ cs =>
    (fix go (cs : list tree) : list (relpath * tree) :=
       match cs with
       | [] => []
       | c :: cs' =>
         (prefix ++ [entry_name c], c) :: rglob (prefix ++ [entry_name c]) c ++ go cs'
       end) cs
  end.

(** [RepoSecurityScanner.find_skill_dirs]. *)
Definition find_skill_dirs (repo_path : tree) : list relpath :=
  map fst (filter (fun pt => is_dir (snd pt) && _is_skill_dir (snd pt)) (rglob [] repo_path)).

(** [at_path t p u]: following the names of [p] from [t] reaches the entry [u];
    [at_path t [] t] is the directory itself. *)
Inductive at_path : tree -> relpath -> tree -> Prop :=
| at_here (t : tree) : at_path t [] t
| at_child (n : string) (cs : list tree) (c : tree) (p : relpath) (u : tree) :
    In c cs -> at_path c p u -> at_path (Dir n cs) (entry_name c :: p) u.

(** The spec's notion of a skill bundle: a directory of the tree (the root
    included) that directly contains an indicator. *)
Definition spec_is_bundle (root : tree) (p : relpath) : Prop :=
  exists u, at_path root p u /\ is_dir u = true /\ _is_skill_dir u = true.

(** Induction on trees with a hypothesis for every child. *)
Fixpoint tree_ind' (P : tree -> Prop)
  (HF : forall n, P (File n))
  (HD : forall n cs, Forall P cs -> P (Dir n cs)) (t : tree) : P t :=
  match t with
  | File n => HF n
  | Dir n cs =>
    HD n cs ((fix go (cs : list tree) : Forall P cs :=
                match cs with
                | [] => Forall_nil _
                | c :: cs' => Forall_cons _ (tree_ind' P HF HD c) (go cs')
                end) cs)
  end.

(* ------------------------------------------------------------------ *)
(** ** The downloader *)

(** The keys of a repo-mapping entry read by [download_repo]; those read
    with [.get] are optional. *)
Record RepoTask := mkRepoTask {
  task_repo_id : string;
  task_repo : string;
  task_branch : option string;
  task_download_url : option string;
  task_id_prefix : option string }.

(** The archive file: [None] when absent, [Some size] otherwise. *)
Definition ZipFile := option Z.

(** What a [curl] subprocess ends with: its return code, or
    [subprocess.TimeoutExpired]. *)
Inductive CurlResult := CurlExit (returncode : Z) | CurlTimeout.

(** One [curl] run: its result and the archive file it leaves behind. *)
Record CurlRun := mkCurlRun { cr_result : CurlResult; cr_file : ZipFile }.

(** The network, as seen by the downloader: the run of [curl] on the given
    attempt number, URL and archive file before the call. *)
Definition Network := nat -> string -> ZipFile -> CurlRun.

(** A Python call that returns a value or raises. *)
Inductive Result (A : Type) := Ok (a : A) | Exc (msg : string).
Arguments Ok {A} a.
Arguments Exc {A} msg.

(** [RepoDownloader._download_with_curl]: [returncode == 0 and
    Path(output_path).stat().st_size > 0]; [stat] on a missing file raises,
    as does the [subprocess.run] timeout. *)
Definition _download_with_curl (net : Network) (attempt : nat) (url : string)
  (zip : ZipFile) : Result bool * ZipFile :=
  let run := net attempt url zip in
  match cr_result run with
  | CurlTimeout => (Exc "TimeoutExpired", cr_file run)
  | CurlExit rc =>
    if Z.eqb rc 0 then
      match cr_file run with
      | None => (Exc "FileNotFoundError", None)
      | Some size => (Ok (Z.ltb 0 size), Some size)
      end
    else (Ok false, cr_file run)
  end.

(** The message of [download_repo]'s result, with the size in MB left as
    the byte count and [branch_display] kept as text. *)
Inductive DownloadMsg :=
| MsgAlreadyExists (size : Z)
| MsgDownloaded (size : Z) (branch_display : string)
| MsgFailedBranch (branch_display : string)
| MsgFailed.

(** [str(download_url)]: Python prints [None] as ["None"]. *)
Definition py_str_opt (o : option string) : string :=
  match o with Some s => s | None => "None" end.

Definition primary_branch (t : RepoTask) : string :=
  match task_branch t with Some b => b | None => "main" end.

(** [fallback_branch = 'master' if primary_branch == 'main' else 'main']. *)
Definition fallback_branch (t : RepoTask) : string :=
  if String.eqb (primary_branch t) "main" then "master" else "main".

Definition fallback_url (t : RepoTask) : string :=
  ("https://github.com/" ++ task_repo t ++ "/archive/" ++ fallback_branch t ++ ".zip")%string.

(** [if zip_path.exists(): zip_path.unlink()]. *)
Definition unlink (zip : ZipFile) : ZipFile := None.

Definition zip_size (zip : ZipFile) : Z :=
  match zip with Some size => size | None => 0%Z end.

(** The [for attempt in range(2)] loop of [download_repo], unrolled.  Besides
    the returned triple it gives the [curl] calls made (URL, and archive file
    before the call) and the archive file at the end. *)
Definition download_attempts (net : Network) (t : RepoTask) (zip : ZipFile)
  : (bool * string * DownloadMsg) * list (string * ZipFile) * ZipFile :=
  let repo_id := task_repo_id t in
  (* attempt == 0 *)
  let url0 := py_str_opt (task_download_url t) in
  let display0 := primary_branch t in
  let '(r0, zip0) := _download_with_curl net 0 url0 zip in
  (* attempt == 1 *)
  let attempt1 (zip1 : ZipFile) :=
    let url1 := fallback_url t in
    let display1 := (fallback_branch t ++ " (fallback)")%string in
    let '(r1, zip2) := _download_with_curl net 1 url1 zip1 in
    let calls := [(url0, zip); (url1, zip1)] in
    match r1 with
    | Ok true => ((true, repo_id, MsgDownloaded (zip_size zip2) display1), calls, zip2)
    | Ok false => ((false, repo_id, MsgFailedBranch display1), calls, zip2)
    | Exc _ => (* [continue], then the loop ends *)
      ((false, repo_id, MsgFailed), calls, zip2)
    end in
  match r0 with
  | Ok true => ((true, repo_id, MsgDownloaded (zip_size zip0) display0), [(url0, zip)], zip0)
  | Ok false => attempt1 (unlink zip0)
  | Exc _ => attempt1 (unlink zip0)
  end.

(** [RepoDownloader.download_repo]: the archive check, then the attempts. *)
Definition download_repo (net : Network) (t : RepoTask) (zip : ZipFile)
  : (bool * string * DownloadMsg) * list (string * ZipFile) * ZipFile :=
  match zip with
  | Some size =>
    if Z.ltb 0 size then ((true, task_repo_id t, MsgAlreadyExists size), [], zip)
    else download_attempts net t zip
  | None => download_attempts net t zip
  end.

(** One [curl] run downloads a non-empty archive. *)
Definition attempt_ok (r : CurlRun) : bool :=
  match cr_result r, cr_file r with
  | CurlExit rc, Some size => Z.eqb rc 0 && Z.ltb 0 size
  | _, _ => false
  end.

(* ------------------------------------------------------------------ *)
(** ** The scanner's file system *)

(** The five subdirectories of [self.risk_dirs]. *)
Inductive Tier := TCritical | THigh | TMedium | TLow | TSafe.

(** [paths.get_risk_dir(level)]: the directory name of a partition. *)
Definition tier_dir (t : Tier) : string :=
  match t with
  | TCritical => "critical" | THigh => "high" | TMedium => "medium"
  | TLow => "low" | TSafe => "safe"
  end.

(** The key under which a partition is stored in [self.risk_dirs]. *)
Definition tier_risk (t : Tier) : RiskLevel :=
  match t with
  | TCritical => CRITICAL | THigh => HIGH | TMedium => MEDIUM | TLow => LOW | TSafe => SAFE
  end.

(** [self.risk_dirs.values()], in insertion order. *)
Definition risk_dirs : list Tier := [TCritical; THigh; TMedium; TLow; TSafe].

(** [self.risk_dirs.get(repo_risk, self.risk_dirs['LOW'])]. *)
Definition target_dir (repo_risk : RiskLevel) : Tier :=
  match find (fun t => risk_eqb (tier_risk t) repo_risk) risk_dirs with
  | Some t => t
  | None => TLow
  end.

(** [f"{repo_id}_report.json"]. *)
Definition report_file (repo_id : string) : string := (repo_id ++ "_report.json")%string.

(** The paths the scanner touches. *)
Inductive path :=
| PRepo (repo_id : string)                  (* repo_dir / repo_id *)
| PTemp (repo_id : string)                  (* workspace_dir / temp_extract_{repo_id} *)
| PTempItem (repo_id : string) (name : string) (* an entry of the staging directory *)
| PReport (tier : Tier) (file : string).     (* risk_dir / {repo_id}_report.json *)

(** The report dict built by [_generate_report]. *)
Record RepoReport := mkRepoReport {
  rr_repo_id : string;
  rr_repo_name : string;
  rr_repo_path : path;
  rr_scan_timestamp : string;
  rr_risk_level : string;
  rr_total_skills : nat;
  rr_scanned_skills : nat;
  rr_failed_skills : nat;
  rr_total_files_scanned : Z;
  rr_risk_summary : Summary;
  rr_skills_reports : list SkillReport;
  rr_all_issues : list Finding }.

(** A report file as [json.load] reads it back: parsed, with the value of
    its ["risk_level"] key if present, or raising. *)
Inductive ReportFile := RFParsed (risk_level : option string) | RFUnparseable.

(** An archive as [zipfile] sees it: not a zip file, failing part way through
    [extractall], or unpacking to the given top-level entries. *)
Inductive ZipContent := ZipBad | ZipFailMid | ZipOk (entries : list string).

(** The effects of the scanner on the file system and the analyzer. *)
Inductive event :=
| EvRead (p : path)                    (* open(p) and json.load *)
| EvCreate (p : path)                  (* p appears, its content being written *)
| EvFinish (p : path)                  (* the writing of p is complete *)
| EvDump (p : path) (rep : RepoReport) (* json.dump(rep) into the open p completes *)
| EvMove (src dst : path)              (* shutil.move *)
| EvRmtree (p : path)                  (* shutil.rmtree of a directory *)
| EvAnalyze (skill : relpath).         (* scan_skill: the analyzer subprocess *)

(** What [repo_dir / {repo_id}] is when [extract_repo] starts: missing or an
    empty directory, a directory with entries, or a plain file (what
    [shutil.move] leaves there from an archive whose single top-level entry
    is a file). *)
Inductive Target := TgtEmpty | TgtNonEmpty | TgtFile.

(** What the file system and the analyzer answer for each repository. *)
Record Env := mkEnv {
  env_report : Tier -> string -> option ReportFile; (* existing report files *)
  env_target : string -> Target;         (* repo_dir / {repo_id} before extraction *)
  env_zip : string -> ZipContent;        (* the archive {repo_id}.zip *)
  env_tree : string -> tree;             (* what repo_dir / {repo_id} holds once extracted *)
  env_analyze : string -> relpath -> option SkillReport; (* scan_skill *)
  env_dump_ok : string -> bool;          (* json.dump of the report succeeds *)
  env_now : string;                      (* datetime.now().isoformat() *)
  env_thresholds : Thresholds }.

(** [self.scan_stats]. *)
Record Stats := mkStats {
  st_total : nat; st_scanned : nat; st_failed : nat; st_skipped : nat;
  st_by_risk : Counts }.

Definition stats0 : Stats := mkStats 0 0 0 0 counts0.

Record ScanState := mkScanState { ss_stats : Stats; ss_trace : list event }.

(* ------------------------------------------------------------------ *)
(** ** A state and exception monad *)

Definition M (A : Type) := ScanState -> Result A * ScanState.

Definition ret {A} (a : A) : M A := fun s => (Ok a, s).

Definition bind {A B} (m : M A) (k : A -> M B) : M B :=
  fun s => match m s with
           | (Ok a, s') => k a s'
           | (Exc e, s') => (Exc e, s')
           end.

Definition raise {A} (e : string) : M A := fun s => (Exc e, s).

Notation "x <- m ;; k" := (bind m (fun x => k))
  (at level 61, m at next level, right associativity).
Notation "m ;;; k" := (bind m (fun _ => k)) (at level 61, right associativity).

Definition emit (e : event) : M unit :=
  fun s => (Ok tt, mkScanState (ss_stats s) (ss_trace s ++ [e])).

Definition modify_stats (f : Stats -> Stats) : M unit :=
  fun s => (Ok tt, mkScanState (f (ss_stats s)) (ss_trace s)).

Definition incr_scanned (st : Stats) : Stats :=
  let '(mkStats t sc f sk b) := st in mkStats t (S sc) f sk b.
Definition incr_failed (st : Stats) : Stats :=
  let '(mkStats t sc f sk b) := st in mkStats t sc (S f) sk b.
Definition incr_by_risk (r : RiskLevel) (st : Stats) : Stats :=
  let '(mkStats t sc f sk b) := st in mkStats t sc f sk (cincr b r).
Definition set_total (n : nat) (st : Stats) : Stats :=
  let '(mkStats _ sc f sk b) := st in mkStats n sc f sk b.

(* ------------------------------------------------------------------ *)
(** ** The scanner *)

Section Scanner.

Variable env : Env.

(** [RepoSecurityScanner.extract_repo] on [zip_dir / {repo_id}.zip].  An
    archive that [ZipFile] refuses raises before the staging directory is
    created; one with no entries leaves no staging directory, so
    [temp_dir.iterdir()] raises; in both cases [temp_dir.exists()] is false
    and nothing is removed.  When [target_path] is a plain file,
    [any(target_path.iterdir())] raises [NotADirectoryError] before the
    [try], so the exception leaves [extract_repo]. *)
Definition extract_repo (repo_id : string) : M (option path) :=
  let target_path := PRepo repo_id in
  let temp_dir := PTemp repo_id in
  match env_target env repo_id with
  | TgtNonEmpty => ret (Some target_path)
  | TgtFile => raise "NotADirectoryError"
  | TgtEmpty =>
    match env_zip env repo_id with
    | ZipBad => ret None
    | ZipFailMid =>
      emit (EvCreate temp_dir) ;;;
      emit (EvRmtree temp_dir) ;;;
      ret None
    | ZipOk [] => ret None
    | ZipOk extracted_items =>
      emit (EvCreate temp_dir) ;;;
      emit (EvFinish temp_dir) ;;;
      let source_dir :=
        match extracted_items with
        | [x] => PTempItem repo_id x
        | _ => temp_dir
        end in
      emit (EvMove source_dir target_path) ;;;
      emit (EvRmtree temp_dir) ;;;
      modify_stats incr_scanned ;;;
      ret (Some target_path)
    end
  end.

(** The [for skill_dir in skill_dirs] loop of [scan_repo]: the reports of
    the bundles whose analysis produced one. *)
Fixpoint scan_skills (repo_id : string) (skill_dirs : list relpath) : M (list SkillReport) :=
  match skill_dirs with
  | [] => ret []
  | skill_dir :: rest =>
    emit (EvAnalyze skill_dir) ;;;
    rs <- scan_skills repo_id rest ;;
    match env_analyze env repo_id skill_dir with
    | Some report => ret (report :: rs)
    | None => ret rs
    end
  end.

(** The probe of [scan_repo]: the first partition holding the report file. *)
Definition find_existing (repo_id : string) : option (Tier * ReportFile) :=
  fold_right
    (fun t acc => match env_report env t (report_file repo_id) with
                  | Some f => Some (t, f)
                  | None => acc
                  end) None risk_dirs.

(** [existing_report.get('risk_level', 'UNKNOWN')], with ['UNKNOWN'] when
    the file does not parse. *)
Definition existing_risk (f : ReportFile) : string :=
  match f with
  | RFParsed (Some r) => r
  | RFParsed None => "UNKNOWN"
  | RFUnparseable => "UNKNOWN"
  end.

End Scanner.

Definition sum_Z (l : list Z) : Z := fold_left Z.add l 0%Z.

(** [RepoSecurityScanner._generate_report]. *)
Definition _generate_report (now : string) (repo_id : string) (repo_path : path)
  (risk_level : RiskLevel) (risk_summary : Summary) (skill_reports : list SkillReport)
  : RepoReport :=
  {| rr_repo_id := repo_id;
     rr_repo_name := repo_id;
     rr_repo_path := repo_path;
     rr_scan_timestamp := now;
     rr_risk_level := risk_name risk_level;
     rr_total_skills := List.length skill_reports;
     rr_scanned_skills := List.length skill_reports;
     rr_failed_skills := 0;
     rr_total_files_scanned := sum_Z (map total_files skill_reports);
     rr_risk_summary := risk_summary;
     rr_skills_reports := skill_reports;
     rr_all_issues := flat_map findings skill_reports |}.

(** [RepoSecurityScanner.scan_repo]: [(status, risk_level, skill_count)].
    [shutil.rmtree(repo_path, ignore_errors=True)] removes a directory; on a
    plain file it fails, the error is ignored and the file stays. *)
Definition scan_repo (env : Env) (repo_id : string) : M (string * string * nat) :=
  match find_existing env repo_id with
  | Some (t, f) =>
    emit (EvRead (PReport t (report_file repo_id))) ;;;
    ret ("skipped", existing_risk f, 0)
  | None =>
    repo_path <- extract_repo env repo_id ;;
    match repo_path with
    | None => ret ("failed", "UNKNOWN", 0)
    | Some repo_path =>
      let skill_dirs := find_skill_dirs (env_tree env repo_id) in
      match skill_dirs with
      | [] =>
        (if is_dir (env_tree env repo_id) then emit (EvRmtree repo_path) else ret tt) ;;;
        ret ("skipped", "UNKNOWN", 0)
      | _ =>
        skill_reports <- scan_skills env repo_id skill_dirs ;;
        let '(repo_risk, risk_summary) :=
          calculate_repo_risk (env_thresholds env) skill_reports in
        let report := _generate_report (env_now env) repo_id repo_path
                        repo_risk risk_summary skill_reports in
        let report_path := PReport (target_dir repo_risk) (report_file repo_id) in
        emit (EvCreate report_path) ;;;
        if env_dump_ok env repo_id then
          emit (EvDump report_path report) ;;;
          ret ("scanned", risk_name repo_risk, List.length skill_dirs)
        else raise "OSError: json.dump"
      end
    end
  end.

(** The body of the [for future in as_completed(futures)] loop of [scan_all]
    for one repository: a [KeyError] on [by_risk] lands in the [except]. *)
Definition count_outcome (res : Result (string * string * nat)) (st : Stats) : Stats :=
  match res with
  | Ok (status, risk_level, _) =>
    if String.eqb status "scanned" then
      match risk_of_name risk_level with
      | Some r => incr_by_risk r st
      | None => incr_failed st
      end
    else if String.eqb status "skipped" then
      match risk_of_name risk_level with
      | Some r => incr_by_risk r st
      | None => st
      end
    else incr_failed st
  | Exc _ => incr_failed st
  end.

(** The repositories of one [scan_all] run, one after the other (within a
    batch they run concurrently; the counters only receive increments). *)
Fixpoint scan_each (env : Env) (zip_files : list string) : M unit :=
  match zip_files with
  | [] => ret tt
  | zf :: rest =>
    fun s =>
      let '(res, s') := scan_repo env zf s in
      scan_each env rest (mkScanState (count_outcome res (ss_stats s')) (ss_trace s'))
  end.

(** [RepoSecurityScanner.scan_all] on the archive stems, already sorted by
    [_extract_number]; [if limit:] treats [0] as no limit. *)
Definition scan_all (env : Env) (limit : option nat) (start_from : nat)
  (zip_files : list string) : M Stats :=
  let zip_files := skipn start_from zip_files in
  let zip_files := match limit with
                   | Some (S _ as n) => firstn n zip_files
                   | _ => zip_files
                   end in
  modify_stats (set_total (List.length zip_files)) ;;;
  scan_each env zip_files ;;;
  (fun s => (Ok (ss_stats s), s)).

(** Running the scanner from a state with the given statistics and an
    empty log. *)
Definition run {A} (m : M A) (st : Stats) : Result A * ScanState :=
  m (mkScanState st []).

(* ------------------------------------------------------------------ *)
(** ** What the file system shows along a log of effects *)

Definition tier_eqb (a b : Tier) : bool := risk_eqb (tier_risk a) (tier_risk b).

Definition path_eqb (p q : path) : bool :=
  match p, q with
  | PRepo a, PRepo b => String.eqb a b
  | PTemp a, PTemp b => String.eqb a b
  | PTempItem a x, PTempItem b y => String.eqb a b && String.eqb x y
  | PReport t f, PReport u g => tier_eqb t u && String.eqb f g
  | _, _ => false
  end.

(** The visible entries, each with whether its content is complete. *)
Definition fs := list (path * bool).

Definition fs_del (m : fs) (p : path) : fs :=
  filter (fun e => negb (path_eqb (fst e) p)) m.

Definition fs_set (m : fs) (p : path) (complete : bool) : fs := (p, complete) :: fs_del m p.

Definition fs_lookup (m : fs) (p : path) : option bool :=
  option_map snd (find (fun e => path_eqb (fst e) p) m).

(** An entry of the staging directory is as complete as the directory. *)
Definition fs_get (m : fs) (p : path) : option bool :=
  match p with
  | PTempItem repo_id _ => fs_lookup m (PTemp repo_id)
  | _ => fs_lookup m p
  end.

Definition apply_event (m : fs) (e : event) : fs :=
  match e with
  | EvCreate p => fs_set m p false
  | EvFinish p => fs_set m p true
  | EvDump p _ => fs_set m p true
  | EvMove src dst =>
    match fs_get m src with
    | Some c => fs_set (fs_del m src) dst c
    | None => m
    end
  | EvRmtree p => fs_del m p
  | EvRead _ | EvAnalyze _ => m
  end.

(** The canonical paths: extracted repositories and report files. *)
Definition canonical (p : path) : bool :=
  match p with PRepo _ | PReport _ _ => true | _ => false end.

Definition partial_canonical (m : fs) : bool :=
  existsb (fun e => canonical (fst e) && negb (snd e)) m.

(** Some state along the log shows a canonical path whose writing is not
    complete. *)
Fixpoint partial_seen (m : fs) (trace : list event) : bool :=
  partial_canonical m ||
  match trace with
  | [] => false
  | e :: rest => partial_seen (apply_event m e) rest
  end.

Definition fs_after (m : fs) (trace : list event) : fs := fold_left apply_event trace m.

(* ------------------------------------------------------------------ *)
(** ** Text of the downloader's messages *)

(** The decimal digit [d] (below 10). *)
Definition digit_char (d : nat) : ascii := ascii_of_nat (48 + d).

(** [str(n)] for an int [n >= 0], the digits produced from the last one. *)
Fixpoint digits_fuel (fuel n : nat) (acc : string) : string :=
  match fuel with
  | 0 => acc
  | S f =>
    let acc' := String (digit_char (n mod 10)) acc in
    if n <? 10 then acc' else digits_fuel f (n / 10) acc'
  end.

Definition str_nat (n : nat) : string := digits_fuel (S n) n "".

(** [f"{size / 1024 / 1024:.2f}"] for a file size [size >= 0].  Below
    [2^53] bytes the two divisions are exact, and [:.2f] rounds the exact
    value to two decimals, halves to even. *)
Definition mb_2f (size : Z) : string :=
  let num := (100 * size)%Z in
  let q := (num / 1048576)%Z in
  let r := (num mod 1048576)%Z in
  let q := if (1048576 <? 2 * r)%Z then (q + 1)%Z
           else if (2 * r =? 1048576)%Z then (if Z.odd q then (q + 1)%Z else q)
           else q in
  let cents := Z.to_nat (q mod 100) in
  (str_nat (Z.to_nat (q / 100)) ++ "." ++
   String (digit_char (cents / 10)) (String (digit_char (cents mod 10)) ""))%string.

(** The third component of [download_repo]'s result, as Python renders it. *)
Definition msg_text (m : DownloadMsg) : string :=
  match m with
  | MsgAlreadyExists size => "Already exists (" ++ mb_2f size ++ " MB)"
  | MsgDownloaded size branch_display =>
    "Downloaded (" ++ mb_2f size ++ " MB) [" ++ branch_display ++ "]"
  | MsgFailedBranch branch_display => "Download failed (branch: " ++ branch_display ++ ")"
  | MsgFailed => "Download failed"
  end.

(** [needle in hay] on strings: [needle] occurs in [hay] at some position. *)
Fixpoint py_in (needle hay : string) : bool :=
  String.prefix needle hay ||
  match hay with
  | EmptyString => false
  | String _ rest => py_in needle rest
  end.

(* ------------------------------------------------------------------ *)
(** ** [RepoDownloader.download_all] *)

(** The statistics dictionary of [download_all]. *)
Record DownloadStats := mkDownloadStats {
  ds_total : nat; ds_success : nat; ds_failed : nat; ds_skipped : nat }.

(** [zip_filename = f"{repo_info.get('id_prefix', '')}{repo_id}.zip"]. *)
Definition zip_filename (t : RepoTask) : string :=
  ((match task_id_prefix t with Some p => p | None => "" end) ++ task_repo_id t ++ ".zip")%string.

(** The files of [zip_dir], by name. *)
Definition ZipStore := string -> ZipFile.

Definition store_set (z : ZipStore) (name : string) (zip : ZipFile) : ZipStore :=
  fun name' => if String.eqb name' name then zip else z name'.

(** The body of the [for future in as_completed(futures)] loop for one
    result ([download_repo] itself never raises, so the [except] arm is not
    reached). *)
Definition count_download (res : bool * string * DownloadMsg) (st : DownloadStats)
  : DownloadStats :=
  let '(success, _, msg) := res in
  let '(mkDownloadStats total sc fc kc) := st in
  if success then
    if py_in "Already exists" (msg_text msg) then mkDownloadStats total sc fc (S kc)
    else mkDownloadStats total (S sc) fc kc
  else mkDownloadStats total sc (S fc) kc.

(** The downloads of one [download_all] run, one after the other, each on
    the archive file its name designates (the thread pool runs them
    concurrently; with distinct file names they touch distinct files). *)
Fixpoint download_each (net : Network) (repo_mapping : list RepoTask) (z : ZipStore)
  (st : DownloadStats) : DownloadStats * ZipStore :=
  match repo_mapping with
  | [] => (st, z)
  | t :: rest =>
    let '(res, _, zip') := download_repo net t (z (zip_filename t)) in
    download_each net rest (store_set z (zip_filename t) zip') (count_download res st)
  end.

(** [RepoDownloader.download_all]; [if limit:] treats [0] as no limit. *)
Definition download_all (net : Network) (repo_mapping : list RepoTask) (limit : option nat)
  (z : ZipStore) : DownloadStats * ZipStore :=
  let repo_mapping := match limit with
                      | Some (S _ as n) => firstn n repo_mapping
                      | _ => repo_mapping
                      end in
  let total := List.length repo_mapping in
  download_each net repo_mapping z (mkDownloadStats total 0 0 0).

(* ------------------------------------------------------------------ *)
(** ** [_extract_number] and the order of [scan_all] *)

(** [\d] on a character (file names are taken as ASCII or Latin-1, where
    the decimal digits are [0-9]). *)
Definition is_digit (c : ascii) : bool :=
  (48 <=? nat_of_ascii c) && (nat_of_ascii c <=? 57).

(** The longest prefix of digits. *)
Fixpoint digit_run (s : string) : string :=
  match s with
  | String c rest => if is_digit c then String c (digit_run rest) else EmptyString
  | EmptyString => EmptyString
  end.

(** [re.search(r'(\d+)', s)]: group 1 of the leftmost match, greedy. *)
Fixpoint search_digits (s : string) : option string :=
  match s with
  | EmptyString => None
  | String c rest => if is_digit c then Some (digit_run s) else search_digits rest
  end.

(** [int(...)] on a string of digits. *)
Fixpoint int_of_digits (acc : nat) (s : string) : nat :=
  match s with
  | EmptyString => acc
  | String c rest => int_of_digits (acc * 10 + (nat_of_ascii c - 48)) rest
  end.

(** [RepoSecurityScanner._extract_number]. *)
Definition _extract_number (filename : string) : nat :=
  match search_digits filename with
  | Some d => int_of_digits 0 d
  | None => 0
  end.

(** [list.sort(key=...)]: the stable sort by the key, here as insertion. *)
Fixpoint insert_by_number (x : string) (l : list string) : list string :=
  match l with
  | [] => [x]
  | y :: l' => if _extract_number x <=? _extract_number y then x :: l
               else y :: insert_by_number x l'
  end.

Fixpoint sort_by_number (l : list string) : list string :=
  match l with
  | [] => []
  | x :: l' => insert_by_number x (sort_by_number l')
  end.

(* ------------------------------------------------------------------ *)
(** ** The configuration ([src/code/utils/config_loader.py]) *)

(** A value [yaml.safe_load] produces: numbers (int or float) as rationals,
    a mapping as its (distinct) keys with their values, in order. *)
Inductive json :=
| JNull
| JBool (b : bool)
| JNum (q : Q)
| JStr (s : string)
| JList (l : list json)
| JDict (kvs : list (string * json)).

(** Python's truth value of a loaded value. *)
Definition truthy (v : json) : bool :=
  match v with
  | JNull => false
  | JBool b => b
  | JNum q => negb (Qeq_bool q 0)
  | JStr s => negb (String.eqb s "")
  | JList l => match l with [] => false | _ => true end
  | JDict kvs => match kvs with [] => false | _ => true end
  end.

(** [self._config = yaml.safe_load(f) or {}]. *)
Definition load_config (loaded : json) : json :=
  if truthy loaded then loaded else JDict [].

(** [key.split('.')]. *)
Fixpoint split_dot (s : string) : list string :=
  match s with
  | EmptyString => [""]
  | String c rest =>
    if Ascii.eqb c "." then "" :: split_dot rest
    else match split_dot rest with
         | [] => [String c ""]
         | w :: ws => String c w :: ws
         end
  end.

(** [d.get(k)] on a mapping. *)
Fixpoint dict_get (kvs : list (string * json)) (k : string) : option json :=
  match kvs with
  | [] => None
  | (k', v) :: rest => if String.eqb k' k then Some v else dict_get rest k
  end.

(** The [for k in keys] loop of [Config.get]. *)
Fixpoint get_keys (keys : list string) (value default : json) : json :=
  match keys with
  | [] => value
  | k :: ks =>
    match value with
    | JDict kvs =>
      match dict_get kvs k with
      | None | Some JNull => default
      | Some v => get_keys ks v default
      end
    | _ => default
    end
  end.

(** [Config.get], on the loaded configuration [_config]. *)
Definition get (_config : json) (key : string) (default : json) : json :=
  get_keys (split_dot key) _config default.

(** [os.environ]. *)
Definition Environ := string -> option string.

(** [os.environ.get(key, default)]. *)
Definition environ_get (environ : Environ) (key default : string) : string :=
  match environ key with Some v => v | None => default end.

(** The text up to the first ['}'], when there is one. *)
Fixpoint until_brace (s : string) : option string :=
  match s with
  | EmptyString => None
  | String c rest =>
    if Ascii.eqb c "}" then Some EmptyString else option_map (String c) (until_brace rest)
  end.

(** [re.search(r'\$\{([^}]+)\}', s)]: group 1 of the leftmost match.  At a
    position starting with ["${"], [[^}]+] takes the non-empty run up to the
    next ['}'], or fails when there is none. *)
Fixpoint env_var_match (s : string) : option string :=
  match s with
  | EmptyString => None
  | String c rest =>
    let here :=
      match rest with
      | String c' after =>
        if Ascii.eqb c "$" && Ascii.eqb c' "{" then
          match until_brace after with
          | Some (String _ _ as v) => Some v
          | _ => None
          end
        else None
      | EmptyString => None
      end in
    match here with
    | Some v => Some v
    | None => env_var_match rest
    end
  end.

(** [x in l] for a string [x] and a list: some element equals it. *)
Definition is_str (x : string) (v : json) : bool :=
  match v with JStr s => String.eqb s x | _ => false end.

(** [Config.get_with_env_fallback].  The membership tests raise [TypeError]
    on a number or a boolean; on a list or a mapping they test elements or
    keys, and [re.search] then raises [TypeError]. *)
Definition get_with_env_fallback (_config : json) (environ : Environ)
  (config_key env_key default : string) : Result json :=
  let config_value := get _config config_key (JStr "") in
  if truthy config_value then
    match config_value with
    | JStr s =>
      if py_in "${" s && py_in "}" s then
        match env_var_match s with
        | Some env_var => Ok (JStr (environ_get environ env_var default))
        | None => Ok config_value
        end
      else Ok config_value
    | JList l =>
      if existsb (is_str "${") l && existsb (is_str "}") l then Exc "TypeError"
      else Ok config_value
    | JDict kvs =>
      if existsb (fun kv => String.eqb (fst kv) "${") kvs &&
         existsb (fun kv => String.eqb (fst kv) "}") kvs then Exc "TypeError"
      else Ok config_value
    | _ => Exc "TypeError"
    end
  else Ok (JStr (environ_get environ env_key default)).

(** [str.lower] on a character, strings being taken as Latin-1 (code
    points below 256): [A-Z] and the code points 192 to 222 other than 215
    move up by 32. *)
Definition lower_char (c : ascii) : ascii :=
  let n := nat_of_ascii c in
  if ((65 <=? n) && (n <=? 90)) || ((192 <=? n) && (n <=? 222) && negb (n =? 215))
  then ascii_of_nat (n + 32) else c.

Fixpoint py_lower (s : string) : string :=
  match s with
  | EmptyString => EmptyString
  | String c rest => String (lower_char c) (py_lower rest)
  end.

(** A [pathlib.Path], one name per component. *)
Definition PyPath := list string.

Definition valid_levels : list string := ["critical"; "high"; "medium"; "low"; "safe"].

(** [Paths.get_risk_dir], under [workspace_dir]. *)
Definition get_risk_dir (workspace_dir : PyPath) (risk_level : string) : Result PyPath :=
  let risk_level := py_lower risk_level in
  if existsb (String.eqb risk_level) valid_levels then Ok (workspace_dir ++ [risk_level])
  else Exc ("ValueError: Invalid risk level: " ++ risk_level).

(* ------------------------------------------------------------------ *)
(** ** Predicates used in the statements *)

Definition counted (st : DownloadStats) : nat := ds_success st + ds_failed st + ds_skipped st.

(** The archive file is there and non-empty. *)
Definition preexisting (zip : ZipFile) : bool :=
  match zip with Some size => (0 <? size)%Z | None => false end.

Definition count_preexisting (z : ZipStore) (l : list RepoTask) : nat :=
  List.length (filter (fun t => preexisting (z (zip_filename t))) l).

(** No character of the string is a digit. *)
Definition no_digit (s : string) : bool :=
  forallb (fun c => negb (is_digit c)) (list_ascii_of_string s).

Definition all_digits (s : string) : bool := forallb is_digit (list_ascii_of_string s).

Definition by_number (a b : string) : Prop := _extract_number a <= _extract_number b.

(** The key has no ['.']. *)
Definition no_dot (k : string) : bool :=
  forallb (fun c => negb (Ascii.eqb c ".")) (list_ascii_of_string k).

(** Brace-free text. *)
(** The YAML mapping [{k1: {k2: ... {kn: v}}}]. *)
Fixpoint nest (ks : list string) (v : json) : json :=
  match ks with
  | [] => v
  | k :: ks => JDict [(k, nest ks v)]
  end.

Definition no_brace (v : string) : bool :=
  forallb (fun c => negb (Ascii.eqb c "}")) (list_ascii_of_string v).

(** The repository is there to scan: either extracted by an earlier run or
    unpacked now from an archive with at least one entry. *)
Definition extracts (env : Env) (repo_id : string) : bool :=
  match env_target env repo_id with
  | TgtNonEmpty => true
  | TgtFile => false
  | TgtEmpty => match env_zip env repo_id with ZipOk (_ :: _) => true | _ => false end
  end.

Definition counts_total (c : Counts) : nat :=
  c_critical c + c_high c + c_medium c + c_low c + c_safe c + c_unknown c.

(** The [self.thresholds] dict built by [RepoSecurityScanner.__init__]. *)
Definition scanner_thresholds (_config : json) : json * json * json * json :=
  (get _config "scanner.thresholds.critical" (JNum 8),
   get _config "scanner.thresholds.high" (JNum 6),
   get _config "scanner.thresholds.medium" (JNum 4),
   get _config "scanner.thresholds.low" (JNum 2)).

(* ================================================================== *)
(** * Properties *)

(** ** The risk aggregator *)

Lemma risk_eqb_spec (a b : RiskLevel) : risk_eqb a b = true <-> a = b.
Proof. unfold risk_eqb; destruct a, b; simpl; split; intro; congruence. Qed.

Lemma cget_cincr (c : Counts) (r' r : RiskLevel) :
  cget (cincr c r') r = cget c r + (if risk_eqb r' r then 1 else 0).
Proof. destruct c; destruct r', r; simpl; lia. Qed.

Lemma classify_not_unknown (th : Thresholds) (s : Q) : classify th s <> UNKNOWN.
Proof.
  unfold classify.
  destruct (Qle_bool _ _); [discriminate|].
  destruct (Qle_bool _ _); [discriminate|].
  destruct (Qle_bool _ _); [discriminate|].
  destruct (Qle_bool _ _); discriminate.
Qed.

(** The number of reports a threshold configuration puts at level [r]. *)
Definition count_level (th : Thresholds) (reps : list SkillReport) (r : RiskLevel) : nat :=
  List.length (filter (fun rep => risk_eqb (classify th (risk_score rep)) r) reps).

Definition findings_count (reps : list SkillReport) : nat :=
  list_sum (map (fun rep => List.length (findings rep)) reps).

Lemma count_fold (th : Thresholds) (reps : list SkillReport) (c : Counts) (n : nat) :
  let '(c', n') := fold_left (count_step th) reps (c, n) in
  (forall r, cget c' r = cget c r + count_level th reps r) /\
  n' = n + findings_count reps.
Proof.
  revert c n; induction reps as [|rep reps IH]; intros c n; simpl.
  - unfold count_level, findings_count; simpl; split; [intro; lia | lia].
  - specialize (IH (cincr c (classify th (risk_score rep))) (n + List.length (findings rep))).
    destruct (fold_left _ reps _) as [c' n'].
    destruct IH as [IHc IHn]; split.
    + intro r; rewrite IHc, cget_cincr; unfold count_level; simpl.
      destruct (risk_eqb _ r); simpl; lia.
    + rewrite IHn; unfold findings_count; simpl; lia.
Qed.

Lemma max_fold (c : Counts) :
  (exists r, 0 < cget c r /\ 0 < RISK_PRIORITY r) ->
  let '(_, v) := fold_left (max_step c) risk_keys (0, UNKNOWN) in
  0 < cget c v /\
  forall r, 0 < cget c r -> r = v \/ RISK_PRIORITY r < RISK_PRIORITY v.
Proof.
  destruct c as [a b m l s u]; intros [r0 [Hr0 Hp0]].
  cbv beta iota delta [fold_left risk_keys max_step cget RISK_PRIORITY
                       c_critical c_high c_medium c_low c_safe c_unknown].
  repeat match goal with
         | |- context [0 <? ?x] => destruct (Nat.ltb_spec 0 x); simpl
         end;
  (split; [simpl; lia | intros r Hr; destruct r; simpl in *; first [now left | right; lia | lia]])
  || (exfalso; destruct r0; simpl in *; lia).
Qed.

(** On a non-empty list, the summary counts the classification of every
    report and the verdict is a level that occurs. *)
Lemma calculate_repo_risk_counted (th : Thresholds) (reps : list SkillReport) :
  reps <> [] ->
  let '(verdict, summary) := calculate_repo_risk th reps in
  exists risk_counts total_issues,
    summary = SumCounts risk_counts (List.length reps) total_issues /\
    (forall r, cget risk_counts r = count_level th reps r) /\
    total_issues = findings_count reps /\
    0 < cget risk_counts verdict /\
    (forall r, 0 < cget risk_counts r -> r = verdict \/ RISK_PRIORITY r < RISK_PRIORITY verdict).
Proof.
  intro Hne; destruct reps as [|rep0 reps']; [contradiction|].
  unfold calculate_repo_risk.
  pose proof (count_fold th (rep0 :: reps') counts0 0) as Hc.
  destruct (fold_left (count_step th) (rep0 :: reps') (counts0, 0)) as [rc ti].
  destruct Hc as [Hrc Hti].
  assert (Hex : exists r, 0 < cget rc r /\ 0 < RISK_PRIORITY r).
  { exists (classify th (risk_score rep0)).
    rewrite Hrc; unfold count_level; simpl.
    assert (Hself : risk_eqb (classify th (risk_score rep0))
                             (classify th (risk_score rep0)) = true)
      by (apply risk_eqb_spec; reflexivity).
    rewrite Hself; simpl; split; [lia|].
    pose proof (classify_not_unknown th (risk_score rep0)).
    destruct (classify th (risk_score rep0)); simpl; try lia; congruence. }
  pose proof (max_fold rc Hex) as Hm.
  destruct (fold_left (max_step rc) risk_keys (0, UNKNOWN)) as [mp v].
  destruct Hm as [Hv Hmax].
  exists rc, ti.
  split; [reflexivity|].
  split; [intro r; rewrite Hrc; destruct r; reflexivity|].
  split; [rewrite Hti; reflexivity|].
  split; assumption.
Qed.

(** Comparisons with a threshold, as propositions. *)
Ltac qle_facts :=
  repeat match goal with
         | H : Qle_bool _ _ = true |- _ => apply Qle_bool_iff in H
         | H : Qle_bool _ _ = false |- _ =>
           rewrite <- not_true_iff_false, Qle_bool_iff in H
         end.

(** C3: on a non-empty list, [calculate_repo_risk] counts the classification
    of every report per level, sums the findings into [total_issues], and
    returns the occurring level of strictly highest priority; with the
    thresholds 8/6/4/2 and scores [1, 5, 9] it yields [CRITICAL] with one
    report each at [SAFE], [MEDIUM] and [CRITICAL]. *)
Theorem calculate_repo_risk_nonempty :
  (forall (th : Thresholds) (reps : list SkillReport), reps <> [] ->
   let '(verdict, summary) := calculate_repo_risk th reps in
   exists risk_counts total_issues,
     summary = SumCounts risk_counts (List.length reps) total_issues /\
     (forall r, cget risk_counts r = count_level th reps r) /\
     total_issues = findings_count reps /\
     0 < cget risk_counts verdict /\
     (forall r, 0 < cget risk_counts r -> r = verdict \/ RISK_PRIORITY r < RISK_PRIORITY verdict))
  /\
  (forall (f1 f2 f3 : list Finding) (n1 n2 n3 : Z),
   map (classify default_thresholds) [1; 5; 9]%Q = [SAFE; MEDIUM; CRITICAL] /\
   calculate_repo_risk default_thresholds
     [mkSkillReport 1 f1 n1; mkSkillReport 5 f2 n2; mkSkillReport 9 f3 n3] =
   (CRITICAL,
    SumCounts (mkCounts 1 0 1 0 1 0) 3
      (List.length f1 + List.length f2 + List.length f3))).
Proof.
  split.
  - intros th reps Hne.
    destruct reps as [|rep0 reps']; [contradiction|].
    unfold calculate_repo_risk.
    pose proof (count_fold th (rep0 :: reps') counts0 0) as Hc.
    destruct (fold_left (count_step th) (rep0 :: reps') (counts0, 0)) as [rc ti].
    destruct Hc as [Hrc Hti].
    assert (Hex : exists r, 0 < cget rc r /\ 0 < RISK_PRIORITY r).
    { exists (classify th (risk_score rep0)).
      rewrite Hrc; unfold count_level; simpl.
      assert (Hself : risk_eqb (classify th (risk_score rep0))
                               (classify th (risk_score rep0)) = true)
        by (apply risk_eqb_spec; reflexivity).
      rewrite Hself; simpl; split; [lia|].
      pose proof (classify_not_unknown th (risk_score rep0)).
      destruct (classify th (risk_score rep0)); simpl; try lia; congruence. }
    pose proof (max_fold rc Hex) as Hm.
    destruct (fold_left (max_step rc) risk_keys (0, UNKNOWN)) as [mp v].
    destruct Hm as [Hv Hmax].
    exists rc, ti.
    split; [reflexivity|].
    split; [intro r; rewrite Hrc; destruct r; reflexivity|].
    split; [rewrite Hti; reflexivity|].
    split; assumption.
  - intros f1 f2 f3 n1 n2 n3; split; [reflexivity|].
    cbn; do 2 f_equal; lia.
Qed.

(** C4, as the spec words it: the empty list gives [UNKNOWN] with the
    reason ["no skills scanned"].  The code's reason is capitalised. *)
Lemma calculate_repo_risk_empty_lowercase_fails :
  calculate_repo_risk default_thresholds [] <> (UNKNOWN, SumReason "no skills scanned").
Proof. intro H; inversion H. Qed.

(** C4 (amended): [calculate_repo_risk] on the empty list returns exactly
    [('UNKNOWN', {'reason': 'No skills scanned'})], whatever the thresholds. *)
Theorem calculate_repo_risk_empty (th : Thresholds) :
  calculate_repo_risk th [] = (UNKNOWN, SumReason "No skills scanned").
Proof. reflexivity. Qed.

(** C5: for fixed thresholds (ordered or not), a higher score never gets a
    level of lower priority. *)
Theorem classify_monotone (th : Thresholds) (s1 s2 : Q) :
  (s2 <= s1)%Q -> RISK_PRIORITY (classify th s2) <= RISK_PRIORITY (classify th s1).
Proof.
  intro Hle; unfold classify.
  destruct (Qle_bool (t_critical th) s1) eqn:E1;
  destruct (Qle_bool (t_high th) s1) eqn:E2;
  destruct (Qle_bool (t_medium th) s1) eqn:E3;
  destruct (Qle_bool (t_low th) s1) eqn:E4;
  destruct (Qle_bool (t_critical th) s2) eqn:F1;
  destruct (Qle_bool (t_high th) s2) eqn:F2;
  destruct (Qle_bool (t_medium th) s2) eqn:F3;
  destruct (Qle_bool (t_low th) s2) eqn:F4;
  simpl; try lia; qle_facts;
  exfalso;
  first [ apply E1; eapply Qle_trans; eassumption
        | apply E2; eapply Qle_trans; eassumption
        | apply E3; eapply Qle_trans; eassumption
        | apply E4; eapply Qle_trans; eassumption ].
Qed.

Lemma classify_monotone_witness :
  (4 <= 7)%Q /\
  RISK_PRIORITY (classify default_thresholds 4) <= RISK_PRIORITY (classify default_thresholds 7).
Proof.
  split; [vm_compute; discriminate|].
  apply classify_monotone; vm_compute; discriminate.
Defined.

Lemma calculate_repo_risk_nonempty_witness :
  [mkSkillReport 3 [] 0%Z] <> [] /\
  let '(verdict, summary) := calculate_repo_risk default_thresholds [mkSkillReport 3 [] 0%Z] in
  exists risk_counts total_issues,
    summary = SumCounts risk_counts 1 total_issues /\
    (forall r, cget risk_counts r = count_level default_thresholds [mkSkillReport 3 [] 0%Z] r) /\
    total_issues = findings_count [mkSkillReport 3 [] 0%Z] /\
    0 < cget risk_counts verdict /\
    (forall r, 0 < cget risk_counts r -> r = verdict \/ RISK_PRIORITY r < RISK_PRIORITY verdict).
Proof.
  split; [discriminate|].
  exact (proj1 calculate_repo_risk_nonempty default_thresholds [mkSkillReport 3 [] 0%Z]
           ltac:(discriminate)).
Defined.

(** ** Skill discovery *)

Lemma rglob_Dir (pre : relpath) (n : string) (cs : list tree) :
  rglob pre (Dir n cs) =
  flat_map (fun c => (pre ++ [entry_name c], c) :: rglob (pre ++ [entry_name c]) c) cs.
Proof.
  induction cs as [|c cs IH]; [reflexivity|].
  simpl in *; rewrite IH; reflexivity.
Qed.

Lemma at_path_nil (t u : tree) : at_path t [] u -> u = t.
Proof. intro H; inversion H; reflexivity. Qed.

Lemma at_path_File (n : string) (q : relpath) (u : tree) :
  at_path (File n) q u -> q = [].
Proof. intro H; inversion H; reflexivity. Qed.

Lemma at_path_Dir_cons (n x : string) (cs : list tree) (q : relpath) (u : tree) :
  at_path (Dir n cs) (x :: q) u -> exists c, In c cs /\ x = entry_name c /\ at_path c q u.
Proof. intro H; inversion H; subst; eauto. Qed.

(** [rglob] yields exactly the entries strictly below the directory. *)
Lemma rglob_spec (t : tree) :
  forall pre p u,
    In (p, u) (rglob pre t) <-> exists q, p = pre ++ q /\ q <> [] /\ at_path t q u.
Proof.
  induction t as [n|n cs IH] using tree_ind'; intros pre p u.
  - simpl; split; [tauto|].
    intros [q [_ [Hq Hat]]]; apply at_path_File in Hat; contradiction.
  - rewrite rglob_Dir, in_flat_map; rewrite Forall_forall in IH; split.
    + intros [c [Hc Hin]]; destruct Hin as [Heq | Hin].
      * injection Heq as Hp Hu; subst p u.
        exists [entry_name c]; split; [reflexivity|]; split; [discriminate|].
        apply at_child; [assumption | constructor].
      * apply (IH c Hc) in Hin; destruct Hin as [q [-> [Hq Hat]]].
        exists (entry_name c :: q); split; [rewrite <- app_assoc; reflexivity|].
        split; [discriminate|]; apply at_child; assumption.
    + intros [q [-> [Hq Hat]]]; destruct q as [|x q']; [contradiction|].
      apply at_path_Dir_cons in Hat; destruct Hat as [c [Hc [-> Hat']]].
      exists c; split; [assumption|].
      destruct q' as [|x q''].
      * left; apply at_path_nil in Hat'; subst; reflexivity.
      * right; apply (IH c Hc); exists (x :: q''); split;
          [rewrite <- app_assoc; reflexivity | split; [discriminate | assumption]].
Qed.

(** [find_skill_dirs] returns exactly the bundles strictly below the root. *)
Lemma find_skill_dirs_spec (root : tree) (p : relpath) :
  In p (find_skill_dirs root) <-> p <> [] /\ spec_is_bundle root p.
Proof.
  unfold find_skill_dirs, spec_is_bundle; rewrite in_map_iff; split.
  - intros [[p' u] [Hp Hin]]; simpl in Hp; subst p'.
    apply filter_In in Hin; destruct Hin as [Hin Hb]; simpl in Hb.
    apply andb_true_iff in Hb; destruct Hb as [Hd Hs].
    apply rglob_spec in Hin; destruct Hin as [q [Hq [Hne Hat]]]; simpl in Hq; subst q.
    split; [assumption|]; exists u; auto.
  - intros [Hne [u [Hat [Hd Hs]]]]; exists (p, u); split; [reflexivity|].
    apply filter_In; split.
    + apply rglob_spec; exists p; auto.
    + simpl; rewrite Hd, Hs; reflexivity.
Qed.

(** An environment for one repository ["r1"]: the given report files,
    archive, extracted tree and analyzer answer. *)
Definition env_of (reports : Tier -> string -> option ReportFile) (zip : ZipContent)
  (root : tree) (analysis : option SkillReport) : Env :=
  mkEnv reports (fun _ => TgtEmpty) (fun _ => zip) (fun _ => root) (fun _ _ => analysis)
        (fun _ => true) "2026-10-15T00:00:00" default_thresholds.

Definition no_reports : Tier -> string -> option ReportFile := fun _ _ => None.

(** A repository that is one skill: [SKILL.md] at the top of the archive's
    single [skill-main/] entry. *)
Definition root_skill_tree : tree := Dir "skill-main" [File "SKILL.md"; File "main.py"].

Definition env_root_skill : Env :=
  env_of no_reports (ZipOk ["skill-main"]) root_skill_tree (Some (mkSkillReport 9 [] 1%Z)).

(** C9 (failing input): the repository root directly holds [SKILL.md], so it
    is a bundle, but [rglob('*')] never yields the root: discovery returns
    nothing, and [scan_repo] deletes the extracted repository as having no
    skills. *)
Theorem find_skill_dirs_misses_root :
  spec_is_bundle root_skill_tree [] /\
  find_skill_dirs root_skill_tree = [] /\
  fst (run (scan_repo env_root_skill "r1") stats0) = Ok ("skipped", "UNKNOWN", 0) /\
  In (EvRmtree (PRepo "r1")) (ss_trace (snd (run (scan_repo env_root_skill "r1") stats0))).
Proof.
  split; [exists root_skill_tree; split; [constructor | split; reflexivity]|].
  split; [reflexivity|].
  split; [reflexivity|].
  vm_compute; tauto.
Qed.

(** ** The downloader *)

(** [_download_with_curl] succeeds exactly when the run left a non-empty
    archive with return code 0. *)
Lemma download_with_curl_ok (net : Network) (k : nat) (url : string) (zip : ZipFile) :
  fst (_download_with_curl net k url zip) = Ok true <-> attempt_ok (net k url zip) = true.
Proof.
  unfold _download_with_curl, attempt_ok.
  destruct (net k url zip) as [[rc|] [size|]]; simpl;
    try (destruct (Z.eqb rc 0)); simpl; split; intro H; try discriminate; try congruence;
    try (rewrite H; reflexivity);
    try (destruct (Z.ltb 0 size); congruence).
Qed.

(** C6: with the mapping entry's [download_url] [u] and no non-empty archive
    yet, [download_repo] runs [curl] at most twice: first on [u]; when that
    run does not leave a non-empty archive (non-zero return code, timeout,
    missing or zero-byte file) the archive is removed and the second run
    fetches the other default branch ([main] and [master] swap), a success
    there being reported with a ["(fallback)"] branch; the result is a
    failure only when both runs fail. *)
Theorem download_repo_fallback (net : Network) (t : RepoTask) (u : string) (zip : ZipFile) :
  task_download_url t = Some u ->
  (forall size, zip = Some size -> (size <= 0)%Z) ->
  let '((ok, _, msg), calls, final) := download_repo net t zip in
  List.length calls <= 2 /\
  hd_error calls = Some (u, zip) /\
  (attempt_ok (net 0 u zip) = true ->
     calls = [(u, zip)] /\ ok = true /\ msg = MsgDownloaded (zip_size final) (primary_branch t)) /\
  (attempt_ok (net 0 u zip) = false ->
     calls = [(u, zip); (fallback_url t, None)] /\
     ok = attempt_ok (net 1 (fallback_url t) None) /\
     (ok = true ->
      msg = MsgDownloaded (zip_size final) (fallback_branch t ++ " (fallback)")%string)) /\
  (primary_branch t = "main" -> fallback_branch t = "master") /\
  (primary_branch t = "master" -> fallback_branch t = "main").
Proof.
  intros Hurl Hfresh.
  assert (Hd : download_repo net t zip = download_attempts net t zip).
  { destruct zip as [size|]; [|reflexivity]; simpl.
    specialize (Hfresh size eq_refl).
    destruct (Z.ltb_spec 0 size); [lia | reflexivity]. }
  rewrite Hd; clear Hd.
  assert (Hbr : (primary_branch t = "main" -> fallback_branch t = "master") /\
                (primary_branch t = "master" -> fallback_branch t = "main")).
  { unfold fallback_branch; split; intro H; rewrite H; reflexivity. }
  unfold download_attempts; rewrite Hurl; cbn [py_str_opt]; cbv [unlink].
  pose proof (download_with_curl_ok net 0 u zip) as H0.
  pose proof (download_with_curl_ok net 1 (fallback_url t) None) as H1.
  destruct (_download_with_curl net 0 u zip) as [r0 zip0]; simpl in H0.
  destruct (_download_with_curl net 1 (fallback_url t) None) as [r1 zip2]; simpl in H1.
  destruct (attempt_ok (net 0 u zip)) eqn:A0;
  destruct (attempt_ok (net 1 (fallback_url t) None)) eqn:A1;
  destruct r0 as [[|]|e0]; destruct r1 as [[|]|e1];
  try (exfalso; pose proof (proj2 H0 eq_refl) as X; discriminate X);
  try (exfalso; pose proof (proj1 H0 eq_refl) as X; discriminate X);
  try (exfalso; pose proof (proj2 H1 eq_refl) as X; discriminate X);
  try (exfalso; pose proof (proj1 H1 eq_refl) as X; discriminate X);
  simpl; repeat split; simpl; try lia; try discriminate; try tauto; try reflexivity.
Qed.

Definition task_main : RepoTask :=
  mkRepoTask "r1" "owner/repo" (Some "main") (Some "https://github.com/owner/repo/archive/main.zip") None.

(** The [main] archive comes back empty, the [master] one is 1000 bytes. *)
Definition net_main_empty : Network :=
  fun attempt _ _ => if Nat.eqb attempt 0 then mkCurlRun (CurlExit 0) (Some 0%Z)
                     else mkCurlRun (CurlExit 0) (Some 1000%Z).

Lemma download_repo_fallback_witness :
  task_download_url task_main = Some "https://github.com/owner/repo/archive/main.zip" /\
  (forall size, (None : ZipFile) = Some size -> (size <= 0)%Z) /\
  let u := "https://github.com/owner/repo/archive/main.zip" in
  let '((ok, _, msg), calls, final) := download_repo net_main_empty task_main None in
  List.length calls <= 2 /\
  hd_error calls = Some (u, None) /\
  (attempt_ok (net_main_empty 0 u None) = true ->
     calls = [(u, None)] /\ ok = true /\ msg = MsgDownloaded (zip_size final) (primary_branch task_main)) /\
  (attempt_ok (net_main_empty 0 u None) = false ->
     calls = [(u, None); (fallback_url task_main, None)] /\
     ok = attempt_ok (net_main_empty 1 (fallback_url task_main) None) /\
     (ok = true ->
      msg = MsgDownloaded (zip_size final) (fallback_branch task_main ++ " (fallback)")%string)) /\
  (primary_branch task_main = "main" -> fallback_branch task_main = "master") /\
  (primary_branch task_main = "master" -> fallback_branch task_main = "main").
Proof.
  assert (Hn : forall size, (None : ZipFile) = Some size -> (size <= 0)%Z) by discriminate.
  split; [reflexivity|]; split; [exact Hn|].
  exact (download_repo_fallback net_main_empty task_main _ None eq_refl Hn).
Defined.

(** ** The scanner *)

(** The reports [scan_skills] collects. *)
Fixpoint collect_reports (env : Env) (repo_id : string) (dirs : list relpath) : list SkillReport :=
  match dirs with
  | [] => []
  | d :: ds =>
    match env_analyze env repo_id d with
    | Some r => r :: collect_reports env repo_id ds
    | None => collect_reports env repo_id ds
    end
  end.

Lemma scan_skills_spec (env : Env) (repo_id : string) (dirs : list relpath) (s : ScanState) :
  scan_skills env repo_id dirs s =
  (Ok (collect_reports env repo_id dirs),
   mkScanState (ss_stats s) (ss_trace s ++ map EvAnalyze dirs)).
Proof.
  revert s; induction dirs as [|d ds IH]; intro s; destruct s as [st tr].
  - simpl; rewrite app_nil_r; reflexivity.
  - simpl; unfold bind, emit; simpl; rewrite IH; simpl.
    rewrite <- app_assoc; simpl.
    destruct (env_analyze env repo_id d); reflexivity.
Qed.

Lemma collect_reports_length (env : Env) (repo_id : string) (dirs : list relpath) :
  List.length (collect_reports env repo_id dirs) =
  List.length (filter (fun d => match env_analyze env repo_id d with
                                | Some _ => true | None => false end) dirs).
Proof.
  induction dirs as [|d ds IH]; [reflexivity|]; simpl.
  destruct (env_analyze env repo_id d); simpl; auto.
Qed.

(** The case analysis of [scan_repo] on what the environment answers; the
    goal is to mention [run (scan_repo env repo_id) st]. *)
Ltac scan_cases env repo_id :=
  unfold run, scan_repo;
  destruct (find_existing env repo_id) as [[? ?]|] eqn:?;
  [ |
    unfold extract_repo, bind, ret, emit, modify_stats, raise;
    destruct (env_target env repo_id) eqn:?;
    [ destruct (env_zip env repo_id) as [| |[|? [|? ?]]] eqn:? | | ];
    cbn -[scan_skills calculate_repo_risk find_skill_dirs collect_reports];
    try (destruct (find_skill_dirs (env_tree env repo_id)) as [|? ?] eqn:?;
         [destruct (is_dir (env_tree env repo_id)) eqn:? | ];
         cbn -[scan_skills calculate_repo_risk find_skill_dirs collect_reports];
         try (rewrite scan_skills_spec;
              cbn -[calculate_repo_risk find_skill_dirs collect_reports];
              destruct (calculate_repo_risk (env_thresholds env) _) as [? ?] eqn:?;
              destruct (env_dump_ok env repo_id) eqn:?))
  ]; cbn -[calculate_repo_risk find_skill_dirs collect_reports] in *.

(** Every report [scan_repo] writes goes to the partition chosen for the
    verdict of the collected reports, and the run reports [scanned]. *)
Lemma scan_repo_saved (env : Env) (repo_id : string) (st : Stats) (p : path) (rep : RepoReport) :
  In (EvDump p rep) (ss_trace (snd (run (scan_repo env repo_id) st))) ->
  let dirs := find_skill_dirs (env_tree env repo_id) in
  let reps := collect_reports env repo_id dirs in
  let '(repo_risk, summary) := calculate_repo_risk (env_thresholds env) reps in
  p = PReport (target_dir repo_risk) (report_file repo_id) /\
  rep = _generate_report (env_now env) repo_id (PRepo repo_id) repo_risk summary reps /\
  fst (run (scan_repo env repo_id) st) = Ok ("scanned", risk_name repo_risk, List.length dirs).
Proof.

  scan_cases env repo_id.
  all: intro H; repeat rewrite in_app_iff in H; simpl in H;
    repeat match goal with H : _ \/ _ |- _ => destruct H as [H|H] end;
    try (apply in_map_iff in H; destruct H as [? [? ?]]; discriminate);
    try discriminate; try contradiction.
  all: injection H as <- <-; split; [reflexivity | split; reflexivity].
Qed.

Lemma count_level_unknown (th : Thresholds) (reps : list SkillReport) :
  count_level th reps UNKNOWN = 0.
Proof.
  unfold count_level; induction reps as [|rep reps IH]; [reflexivity|]; simpl.
  destruct (risk_eqb (classify th (risk_score rep)) UNKNOWN) eqn:E; [|exact IH].
  apply risk_eqb_spec in E; exfalso; exact (classify_not_unknown _ _ E).
Qed.

(** The verdict is [UNKNOWN] exactly when no report was collected. *)
Lemma verdict_unknown_iff (th : Thresholds) (reps : list SkillReport) :
  fst (calculate_repo_risk th reps) = UNKNOWN <-> reps = [].
Proof.
  split; [|intros ->; reflexivity].
  intro H; destruct reps as [|rep reps]; [reflexivity|]; exfalso.
  pose proof (calculate_repo_risk_counted th (rep :: reps) ltac:(discriminate)) as Hc.
  destruct (calculate_repo_risk th (rep :: reps)) as [v summ]; simpl in H; subst v.
  destruct Hc as [rc [ti [_ [Hrc [_ [Hpos _]]]]]].
  rewrite Hrc, count_level_unknown in Hpos; lia.
Qed.

(** A repository with one bundle, [skills/foo]. *)
Definition skills_tree : tree :=
  Dir "r1-main" [Dir "skills" [Dir "foo" [File "SKILL.md"; File "run.py"]]].

(** Its analysis fails. *)
Definition env_analysis_fails : Env := env_of no_reports (ZipOk ["r1-main"]) skills_tree None.

(** Its analysis reports a score of 5 with one finding. *)
Definition env_medium : Env :=
  env_of no_reports (ZipOk ["r1-main"]) skills_tree (Some (mkSkillReport 5 ["eval"] 2%Z)).

(** C1, as stated, fails: when no bundle analysis yields a report the verdict
    is [UNKNOWN], and the report recording [UNKNOWN] is written under [low/]. *)
Lemma scan_repo_unknown_saved_under_low :
  exists rep,
    In (EvDump (PReport TLow (report_file "r1")) rep)
       (ss_trace (snd (run (scan_repo env_analysis_fails "r1") stats0))) /\
    rr_risk_level rep = "UNKNOWN" /\
    tier_risk TLow <> UNKNOWN.
Proof.
  exists (_generate_report "2026-10-15T00:00:00" "r1" (PRepo "r1") UNKNOWN
            (SumReason "No skills scanned") []).
  split; [apply (nth_error_In _ 6); vm_compute; reflexivity|].
  split; [reflexivity | discriminate].
Qed.

(** C1 (amended): every report [scan_repo] saves is written as
    [{repo_id}_report.json] into one of the five partitions: the one of its
    [risk_level] when that is one of the five tiers, and [low/] when it is
    [UNKNOWN], which happens exactly when no bundle analysis yielded a
    report. *)
Theorem scan_repo_report_partition (env : Env) (repo_id : string) (st : Stats)
  (p : path) (rep : RepoReport) :
  In (EvDump p rep) (ss_trace (snd (run (scan_repo env repo_id) st))) ->
  exists r,
    p = PReport (target_dir r) (report_file repo_id) /\
    rr_risk_level rep = risk_name r /\
    (r <> UNKNOWN -> tier_risk (target_dir r) = r) /\
    (r = UNKNOWN -> target_dir r = TLow) /\
    (r = UNKNOWN <-> rr_skills_reports rep = []).
Proof.
  intro H; apply scan_repo_saved in H.
  pose proof (verdict_unknown_iff (env_thresholds env)
                (collect_reports env repo_id (find_skill_dirs (env_tree env repo_id)))) as Hu.
  destruct (calculate_repo_risk _ _) as [r summ]; simpl in Hu.
  destruct H as [Hp [Hrep _]]; subst rep; exists r.
  split; [exact Hp|]; split; [reflexivity|].
  split; [intro Hn; destruct r; simpl; congruence|].
  split; [intros ->; reflexivity|].
  exact Hu.
Qed.

Lemma scan_repo_report_partition_witness :
  In (EvDump (PReport TMedium (report_file "r1"))
        (_generate_report "2026-10-15T00:00:00" "r1" (PRepo "r1") MEDIUM
           (SumCounts (mkCounts 0 0 1 0 0 0) 1 1) [mkSkillReport 5 ["eval"] 2%Z]))
     (ss_trace (snd (run (scan_repo env_medium "r1") stats0))) /\
  exists r,
    PReport TMedium (report_file "r1") = PReport (target_dir r) (report_file "r1") /\
    rr_risk_level (_generate_report "2026-10-15T00:00:00" "r1" (PRepo "r1") MEDIUM
           (SumCounts (mkCounts 0 0 1 0 0 0) 1 1) [mkSkillReport 5 ["eval"] 2%Z]) = risk_name r /\
    (r <> UNKNOWN -> tier_risk (target_dir r) = r) /\
    (r = UNKNOWN -> target_dir r = TLow) /\
    (r = UNKNOWN <-> rr_skills_reports (_generate_report "2026-10-15T00:00:00" "r1" (PRepo "r1") MEDIUM
           (SumCounts (mkCounts 0 0 1 0 0 0) 1 1) [mkSkillReport 5 ["eval"] 2%Z]) = []).
Proof.
  assert (H : In (EvDump (PReport TMedium (report_file "r1"))
        (_generate_report "2026-10-15T00:00:00" "r1" (PRepo "r1") MEDIUM
           (SumCounts (mkCounts 0 0 1 0 0 0) 1 1) [mkSkillReport 5 ["eval"] 2%Z]))
     (ss_trace (snd (run (scan_repo env_medium "r1") stats0))))
    by (apply (nth_error_In _ 6); vm_compute; reflexivity).
  split; [exact H|].
  exact (scan_repo_report_partition env_medium "r1" stats0 _ _ H).
Defined.

(** C2: when the report file of the repository exists in one partition (and,
    as the store keeps it, in no other), [scan_repo] reads it and returns
    [skipped] with the ["risk_level"] it records (['UNKNOWN'] when it records
    none or does not parse), touching nothing else: no extraction, no
    analyzer run, no change to the statistics. *)
Theorem scan_repo_skips_existing (env : Env) (repo_id : string) (st : Stats)
  (t : Tier) (f : ReportFile) :
  env_report env t (report_file repo_id) = Some f ->
  (forall t', t' <> t -> env_report env t' (report_file repo_id) = None) ->
  run (scan_repo env repo_id) st =
    (Ok ("skipped", existing_risk f, 0),
     mkScanState st [EvRead (PReport t (report_file repo_id))]) /\
  (forall level, f = RFParsed (Some level) -> existing_risk f = level).
Proof.
  intros Hf Hother.
  assert (Hfind : find_existing env repo_id = Some (t, f)).
  { unfold find_existing; simpl.
    destruct t; rewrite Hf;
      repeat (rewrite Hother by discriminate); reflexivity. }
  split; [|intros level ->; reflexivity].
  unfold run, scan_repo; rewrite Hfind; reflexivity.
Qed.

(** A report recording [HIGH] under [high/]. *)
Definition env_high_done : Env :=
  env_of (fun t f => if tier_eqb t THigh && String.eqb f (report_file "r1")
                     then Some (RFParsed (Some "HIGH")) else None)
         (ZipOk ["r1-main"]) skills_tree (Some (mkSkillReport 5 [] 1%Z)).

Lemma scan_repo_skips_existing_witness :
  env_report env_high_done THigh (report_file "r1") = Some (RFParsed (Some "HIGH")) /\
  (forall t', t' <> THigh -> env_report env_high_done t' (report_file "r1") = None) /\
  run (scan_repo env_high_done "r1") stats0 =
    (Ok ("skipped", "HIGH", 0), mkScanState stats0 [EvRead (PReport THigh (report_file "r1"))]) /\
  (forall level, RFParsed (Some "HIGH") = RFParsed (Some level) -> "HIGH" = level).
Proof.
  assert (H1 : env_report env_high_done THigh (report_file "r1") = Some (RFParsed (Some "HIGH")))
    by reflexivity.
  assert (H2 : forall t', t' <> THigh -> env_report env_high_done t' (report_file "r1") = None)
    by (intros t' Ht; destruct t'; [reflexivity | congruence | reflexivity..]).
  split; [exact H1|]; split; [exact H2|].
  exact (scan_repo_skips_existing env_high_done "r1" stats0 THigh _ H1 H2).
Defined.

(** C10: every report [scan_repo] saves has [total_skills = scanned_skills],
    both the number of bundles whose analysis yielded a report, and
    [failed_skills = 0], whatever number of analyses failed. *)
Theorem saved_report_counters (env : Env) (repo_id : string) (st : Stats)
  (p : path) (rep : RepoReport) :
  In (EvDump p rep) (ss_trace (snd (run (scan_repo env repo_id) st))) ->
  rr_total_skills rep = rr_scanned_skills rep /\
  rr_failed_skills rep = 0 /\
  rr_total_skills rep =
    List.length (filter (fun d => match env_analyze env repo_id d with
                                  | Some _ => true | None => false end)
                        (find_skill_dirs (env_tree env repo_id))).
Proof.
  intro H; apply scan_repo_saved in H.
  destruct (calculate_repo_risk _ _) as [r summ].
  destruct H as [_ [-> _]]; simpl.
  split; [reflexivity|]; split; [reflexivity|].
  apply collect_reports_length.
Qed.

(** Two bundles, one of which the analyzer fails on. *)
Definition two_skills_tree : tree :=
  Dir "r1-main" [Dir "good" [File "SKILL.md"]; Dir "bad" [File "tool.json"]].

Definition env_one_fails : Env :=
  mkEnv no_reports (fun _ => TgtEmpty) (fun _ => ZipOk ["r1-main"]) (fun _ => two_skills_tree)
        (fun _ d => match d with
                    | ["good"] => Some (mkSkillReport 1 [] 1%Z)
                    | _ => None
                    end)
        (fun _ => true) "2026-10-15T00:00:00" default_thresholds.

Definition report_one_fails : RepoReport :=
  _generate_report "2026-10-15T00:00:00" "r1" (PRepo "r1") SAFE
    (SumCounts (mkCounts 0 0 0 0 1 0) 1 0) [mkSkillReport 1 [] 1%Z].

Lemma saved_report_counters_witness :
  In (EvDump (PReport TSafe (report_file "r1")) report_one_fails)
     (ss_trace (snd (run (scan_repo env_one_fails "r1") stats0))) /\
  rr_total_skills report_one_fails = rr_scanned_skills report_one_fails /\
  rr_failed_skills report_one_fails = 0 /\
  rr_total_skills report_one_fails =
    List.length (filter (fun d => match env_analyze env_one_fails "r1" d with
                                  | Some _ => true | None => false end)
                        (find_skill_dirs (env_tree env_one_fails "r1"))).
Proof.
  assert (H : In (EvDump (PReport TSafe (report_file "r1")) report_one_fails)
                 (ss_trace (snd (run (scan_repo env_one_fails "r1") stats0))))
    by (apply (nth_error_In _ 7); vm_compute; reflexivity).
  split; [exact H|].
  exact (saved_report_counters env_one_fails "r1" stats0 _ _ H).
Defined.

(** ** Staging and visibility *)

Lemma path_eqb_refl (p : path) : path_eqb p p = true.
Proof.
  destruct p; simpl; rewrite ?String.eqb_refl; try reflexivity.
  unfold tier_eqb, risk_eqb; rewrite Nat.eqb_refl; reflexivity.
Qed.

Lemma partial_del_false (m : fs) (p : path) :
  partial_canonical m = false -> partial_canonical (fs_del m p) = false.
Proof.
  induction m as [|[q c] m IH]; [reflexivity|]; simpl; intro H.
  apply orb_false_iff in H; destruct H as [H1 H2].
  destruct (negb (path_eqb q p)); simpl; rewrite ?H1, ?IH by exact H2; reflexivity.
Qed.

Lemma partial_set_false (m : fs) (p : path) (c : bool) :
  partial_canonical m = false -> (canonical p = false \/ c = true) ->
  partial_canonical (fs_set m p c) = false.
Proof.
  intros H Hpc; unfold fs_set; simpl; rewrite partial_del_false by exact H.
  destruct Hpc as [-> | ->]; [reflexivity | rewrite andb_false_r; reflexivity].
Qed.

Lemma lookup_del (m : fs) (p : path) : fs_lookup (fs_del m p) p = None.
Proof.
  unfold fs_lookup; induction m as [|[q c] m IH]; [reflexivity|]; simpl.
  destruct (path_eqb q p) eqn:E; simpl; [exact IH|].
  rewrite E; exact IH.
Qed.

Lemma lookup_set (m : fs) (p : path) (c : bool) : fs_lookup (fs_set m p c) p = Some c.
Proof. unfold fs_lookup, fs_set; simpl; rewrite path_eqb_refl; reflexivity. Qed.

Lemma path_eqb_true (a b : path) : path_eqb a b = true -> a = b.
Proof.
  destruct a, b; simpl; try discriminate; intro H;
    repeat match goal with H : _ && _ = true |- _ => apply andb_prop in H; destruct H end;
    repeat match goal with H : String.eqb _ _ = true |- _ => apply String.eqb_eq in H end;
    subst; try reflexivity.
  match goal with H : tier_eqb ?t ?u = true |- _ => destruct t, u; try discriminate end;
    reflexivity.
Qed.

Lemma lookup_del_other (m : fs) (p q : path) :
  path_eqb p q = false -> fs_lookup (fs_del m q) p = fs_lookup m p.
Proof.
  intro Hpq; unfold fs_lookup, fs_del; induction m as [|[a c] m IH]; [reflexivity|]; simpl.
  destruct (path_eqb a q) eqn:Eaq; simpl.
  - destruct (path_eqb a p) eqn:Eap; [|exact IH].
    apply path_eqb_true in Eaq, Eap; subst; rewrite path_eqb_refl in Hpq; discriminate.
  - destruct (path_eqb a p); [reflexivity | exact IH].
Qed.

Lemma partial_seen_cons (m : fs) (e : event) (tr : list event) :
  partial_seen m (e :: tr) = partial_canonical m || partial_seen (apply_event m e) tr.
Proof. reflexivity. Qed.

(** The extraction of a repository, as a log of effects. *)
Lemma extract_repo_trace (env : Env) (repo_id : string) (st : Stats) :
  let tr := ss_trace (snd (run (extract_repo env repo_id) st)) in
  tr = [] \/
  tr = [EvCreate (PTemp repo_id); EvRmtree (PTemp repo_id)] \/
  exists src, (src = PTemp repo_id \/ exists x, src = PTempItem repo_id x) /\
    tr = [EvCreate (PTemp repo_id); EvFinish (PTemp repo_id);
          EvMove src (PRepo repo_id); EvRmtree (PTemp repo_id)].
Proof.
  unfold run, extract_repo, bind, ret, emit, modify_stats, raise.
  destruct (env_target env repo_id); [|left; reflexivity|left; reflexivity].
  destruct (env_zip env repo_id) as [| |[|x [|y l]]]; cbn.
  - left; reflexivity.
  - right; left; reflexivity.
  - left; reflexivity.
  - right; right; exists (PTempItem repo_id x); split; [right; exists x|]; reflexivity.
  - right; right; exists (PTemp repo_id); split; [left|]; reflexivity.
Qed.

Lemma partial_seen_start (m : fs) (tr : list event) :
  partial_canonical m = true -> partial_seen m tr = true.
Proof. intro H; destruct tr; simpl; rewrite H; reflexivity. Qed.

(** Once a canonical path is opened for writing, some state along the log
    shows it incomplete. *)
Lemma partial_seen_create (m : fs) (tr : list event) (p : path) :
  canonical p = true -> In (EvCreate p) tr -> partial_seen m tr = true.
Proof.
  intros Hc Hin; revert m; induction tr as [|e tr IH]; intro m; [contradiction|].
  rewrite partial_seen_cons; destruct Hin as [-> | Hin].
  - rewrite (partial_seen_start (apply_event m (EvCreate p)) tr); [apply orb_true_r|].
    unfold partial_canonical; simpl; rewrite Hc; reflexivity.
  - rewrite (IH Hin); apply orb_true_r.
Qed.

Lemma fs_after_create_last (m : fs) (tr : list event) (p : path) :
  fs_lookup (fs_after m (tr ++ [EvCreate p])) p = Some false.
Proof. unfold fs_after; rewrite fold_left_app; apply lookup_set. Qed.

(** When [json.dump] fails, the run raises and the report it opened is the
    last effect of the log. *)
Lemma scan_repo_dump_fails (env : Env) (repo_id : string) (st : Stats) (t : Tier) (f : string) :
  env_dump_ok env repo_id = false ->
  In (EvCreate (PReport t f)) (ss_trace (snd (run (scan_repo env repo_id) st))) ->
  (exists e, fst (run (scan_repo env repo_id) st) = Exc e) /\
  exists pre, ss_trace (snd (run (scan_repo env repo_id) st)) = pre ++ [EvCreate (PReport t f)].
Proof.
  intro Hd; scan_cases env repo_id.
  all: try congruence.
  all: intro H; repeat rewrite in_app_iff in H; simpl in H;
    repeat match goal with H : _ \/ _ |- _ => destruct H as [H|H] end;
    try (apply in_map_iff in H; destruct H as [? [? ?]]; discriminate);
    try discriminate; try contradiction.
  all: injection H as <- <-; split; [eexists; reflexivity|].
  all: rewrite ?app_comm_cons; eexists; reflexivity.
Qed.

(** Once a report is to be saved, [scan_repo] opens it in a partition. *)
Lemma scan_repo_opens_report (env : Env) (repo_id : string) (st : Stats) :
  find_existing env repo_id = None -> extracts env repo_id = true ->
  find_skill_dirs (env_tree env repo_id) <> [] ->
  exists t, In (EvCreate (PReport t (report_file repo_id)))
               (ss_trace (snd (run (scan_repo env repo_id) st))).
Proof.
  intros H1 H2 H3; unfold extracts in H2; scan_cases env repo_id.
  all: try discriminate; try congruence.
  all: match goal with |- context [EvCreate (PReport (target_dir ?r) _)] => exists (target_dir r) end;
       repeat rewrite in_app_iff; simpl; intuition.
Qed.

(** A report [scan_repo] dumps was opened at that very path before. *)
Lemma scan_repo_dump_created (env : Env) (repo_id : string) (st : Stats)
  (p : path) (rep : RepoReport) :
  In (EvDump p rep) (ss_trace (snd (run (scan_repo env repo_id) st))) ->
  In (EvCreate p) (ss_trace (snd (run (scan_repo env repo_id) st))).
Proof.
  scan_cases env repo_id.
  all: intro H; repeat rewrite in_app_iff in H; simpl in H;
    repeat match goal with H : _ \/ _ |- _ => destruct H as [H|H] end;
    try (apply in_map_iff in H; destruct H as [? [? ?]]; discriminate);
    try discriminate; try contradiction.
  all: injection H as <- <-; repeat rewrite in_app_iff; simpl; tauto.
Qed.

(** The [main]-archive repository whose report dump fails part way. *)
Definition env_medium_dump_fails : Env :=
  mkEnv no_reports (fun _ => TgtEmpty) (fun _ => ZipOk ["r1-main"]) (fun _ => skills_tree)
        (fun _ _ => Some (mkSkillReport 5 ["eval"] 2%Z))
        (fun _ => false) "2026-10-15T00:00:00" default_thresholds.

(** C7, as stated, fails: [scan_repo] opens the report at its final path
    and dumps into it, so the partition shows an incomplete report while it
    is written, and keeps it when [json.dump] fails. *)
Lemma report_written_in_place :
  partial_seen [] (ss_trace (snd (run (scan_repo env_medium "r1") stats0))) = true /\
  fs_lookup (fs_after [] (ss_trace (snd (run (scan_repo env_medium_dump_fails "r1") stats0))))
            (PReport TMedium (report_file "r1")) = Some false.
Proof. split; vm_compute; reflexivity. Qed.

(** C7 (amended): extraction unpacks into the private staging directory and
    only moves a fully unpacked tree to [repo_dir/{repo_id}], removing the
    staging directory on success and failure alike, so no state along the
    way shows a partially extracted repository.  Report files, in contrast,
    are not staged: a dumped report was opened at its final path in the
    partition, [scan_repo] opens one there whenever a report is to be saved,
    an opened report is visible incomplete at some state along the way, and
    when [json.dump] fails the run raises and the incomplete report stays at
    its final path. *)
Theorem extraction_staged_report_in_place (env : Env) (repo_id : string) (st : Stats) (m0 : fs) :
  partial_canonical m0 = false ->
  fs_lookup m0 (PTemp repo_id) = None ->
  (let tr := ss_trace (snd (run (extract_repo env repo_id) st)) in
   partial_seen m0 tr = false /\ fs_lookup (fs_after m0 tr) (PTemp repo_id) = None) /\
  (forall p rep,
     In (EvDump p rep) (ss_trace (snd (run (scan_repo env repo_id) st))) ->
     canonical p = true /\ In (EvCreate p) (ss_trace (snd (run (scan_repo env repo_id) st)))) /\
  (find_existing env repo_id = None -> extracts env repo_id = true ->
   find_skill_dirs (env_tree env repo_id) <> [] ->
   exists t, In (EvCreate (PReport t (report_file repo_id)))
                (ss_trace (snd (run (scan_repo env repo_id) st)))) /\
  (forall t f,
     let tr := ss_trace (snd (run (scan_repo env repo_id) st)) in
     In (EvCreate (PReport t f)) tr ->
     partial_seen m0 tr = true /\
     (env_dump_ok env repo_id = false ->
      (exists e, fst (run (scan_repo env repo_id) st) = Exc e) /\
      fs_lookup (fs_after m0 tr) (PReport t f) = Some false)).
Proof.
  intros H0 Ht0; split; [|split; [|split]].
  - cbv zeta.
    destruct (extract_repo_trace env repo_id st) as [E|[E|[src [Hsrc E]]]]; rewrite E.
    + simpl; rewrite H0; split; [reflexivity | exact Ht0].
    + set (T := PTemp repo_id).
      assert (P1 : partial_canonical (fs_set m0 T false) = false)
        by (apply partial_set_false; [exact H0 | left; reflexivity]).
      cbn [partial_seen apply_event fs_after fold_left].
      rewrite H0, P1, partial_del_false by exact P1.
      split; [reflexivity | apply lookup_del].
    + set (T := PTemp repo_id).
      set (m1 := fs_set m0 T false); set (m2 := fs_set m1 T true).
      assert (P1 : partial_canonical m1 = false)
        by (apply partial_set_false; [exact H0 | left; reflexivity]).
      assert (P2 : partial_canonical m2 = false)
        by (apply partial_set_false; [exact P1 | right; reflexivity]).
      assert (G : fs_get m2 src = Some true).
      { destruct Hsrc as [-> | [x ->]]; simpl; apply lookup_set. }
      set (m3 := fs_set (fs_del m2 src) (PRepo repo_id) true).
      assert (P3 : partial_canonical m3 = false)
        by (apply partial_set_false; [apply partial_del_false; exact P2 | right; reflexivity]).
      cbn [partial_seen apply_event fs_after fold_left]; fold m1 m2.
      rewrite G; fold m3.
      rewrite H0, P1, P2, P3, partial_del_false by exact P3.
      split; [reflexivity | apply lookup_del].
  - intros p rep H; split.
    + apply scan_repo_saved in H.
      destruct (calculate_repo_risk _ _) as [r summ].
      destruct H as [-> _]; reflexivity.
    + exact (scan_repo_dump_created env repo_id st p rep H).
  - exact (scan_repo_opens_report env repo_id st).
  - intros t f tr Hin; split; [exact (partial_seen_create m0 tr (PReport t f) eq_refl Hin)|].
    intro Hd; destruct (scan_repo_dump_fails env repo_id st t f Hd Hin) as [He [pre Etr]].
    split; [exact He|]; subst tr; rewrite Etr; apply fs_after_create_last.
Qed.

Lemma extraction_staged_report_in_place_witness :
  partial_canonical [] = false /\ fs_lookup [] (PTemp "r1") = None /\
  (let tr := ss_trace (snd (run (extract_repo env_medium_dump_fails "r1") stats0)) in
   partial_seen [] tr = false /\ fs_lookup (fs_after [] tr) (PTemp "r1") = None) /\
  (forall p rep,
     In (EvDump p rep) (ss_trace (snd (run (scan_repo env_medium_dump_fails "r1") stats0))) ->
     canonical p = true /\
     In (EvCreate p) (ss_trace (snd (run (scan_repo env_medium_dump_fails "r1") stats0)))) /\
  (find_existing env_medium_dump_fails "r1" = None -> extracts env_medium_dump_fails "r1" = true ->
   find_skill_dirs (env_tree env_medium_dump_fails "r1") <> [] ->
   exists t, In (EvCreate (PReport t (report_file "r1")))
                (ss_trace (snd (run (scan_repo env_medium_dump_fails "r1") stats0)))) /\
  (forall t f,
     let tr := ss_trace (snd (run (scan_repo env_medium_dump_fails "r1") stats0)) in
     In (EvCreate (PReport t f)) tr ->
     partial_seen [] tr = true /\
     (env_dump_ok env_medium_dump_fails "r1" = false ->
      (exists e, fst (run (scan_repo env_medium_dump_fails "r1") stats0) = Exc e) /\
      fs_lookup (fs_after [] tr) (PReport t f) = Some false)).
Proof.
  split; [reflexivity|]; split; [reflexivity|].
  exact (extraction_staged_report_in_place env_medium_dump_fails "r1" stats0 [] eq_refl eq_refl).
Defined.

(** ** The statistics of [scan_all] *)

(** A repository without any bundle. *)
Definition env_no_skills : Env :=
  env_of no_reports (ZipOk ["r2-main"]) (Dir "r2-main" [File "README.md"]) None.

(** A repository extracted by an earlier run and scanned now. *)
Definition env_cached_extraction : Env :=
  mkEnv no_reports (fun _ => TgtNonEmpty) (fun _ => ZipOk ["r3-main"]) (fun _ => skills_tree)
        (fun _ _ => Some (mkSkillReport 5 ["eval"] 2%Z))
        (fun _ => true) "2026-10-15T00:00:00" default_thresholds.

(** C8 (failing input): [skipped] is never incremented.  A repository with
    its report already under [high/] is counted in [by_risk['HIGH']] only; a
    repository without bundles is counted in [scanned] (by [extract_repo])
    and [by_risk['UNKNOWN']]; a repository scanned to completion over an
    extraction left by an earlier run leaves [scanned] at 0. *)
Theorem scan_all_counters :
  fst (run (scan_all env_high_done None 0 ["r1"]) stats0) =
    Ok (mkStats 1 0 0 0 (mkCounts 0 1 0 0 0 0)) /\
  fst (run (scan_all env_no_skills None 0 ["r2"]) stats0) =
    Ok (mkStats 1 1 0 0 (mkCounts 0 0 0 0 0 1)) /\
  fst (run (scan_repo env_cached_extraction "r3") stats0) = Ok ("scanned", "MEDIUM", 1) /\
  fst (run (scan_all env_cached_extraction None 0 ["r3"]) stats0) =
    Ok (mkStats 1 0 0 0 (mkCounts 0 0 1 0 0 0)).
Proof. repeat split; vm_compute; reflexivity. Qed.

(* ================================================================== *)
(** * Further properties of the downloader, the configuration and the scanner *)

(** ** Strings *)

Lemma prefix_app (n a b : string) : String.prefix n a = true -> String.prefix n (a ++ b) = true.
Proof.
  revert a; induction n as [|x n IH]; intros a H; [destruct a, b; reflexivity|].
  destruct a as [|y a]; [discriminate|]; simpl in *.
  destruct (ascii_dec x y); [apply IH; exact H | discriminate].
Qed.

Lemma py_in_app_l (n a b : string) : py_in n b = true -> py_in n (a ++ b) = true.
Proof.
  intro H; induction a as [|c a IH]; [exact H|].
  simpl; rewrite IH, orb_true_r; reflexivity.
Qed.

Lemma py_in_app_r (n a b : string) : py_in n a = true -> py_in n (a ++ b) = true.
Proof.
  induction a as [|c a IH]; intro H.
  - simpl in H; destruct n; [destruct b; reflexivity|discriminate].
  - simpl in H |- *; apply orb_true_iff in H as [H|H].
    + pose proof (prefix_app n (String c a) b H) as P; simpl in P; rewrite P; reflexivity.
    + rewrite (IH H), orb_true_r; reflexivity.
Qed.

Lemma py_in_self (n : string) : py_in n n = true.
Proof.
  destruct n as [|c n]; [reflexivity|]; simpl.
  destruct (ascii_dec c c) as [_|C]; [|contradiction].
  assert (Hp : forall s, String.prefix s s = true).
  { induction s as [|x s IH]; [reflexivity|]; simpl.
    destruct (ascii_dec x x); [exact IH | contradiction]. }
  rewrite Hp; reflexivity.
Qed.

(** ** The downloader *)

(** The archive file after a [curl] run is the one the run left. *)
Lemma download_with_curl_file (net : Network) (k : nat) (url : string) (zip : ZipFile) :
  snd (_download_with_curl net k url zip) = cr_file (net k url zip).
Proof.
  unfold _download_with_curl.
  destruct (net k url zip) as [[rc|] [size|]]; simpl; try reflexivity;
    destruct (Z.eqb rc 0); reflexivity.
Qed.

Lemma download_with_curl_nonempty (net : Network) (k : nat) (url : string) (zip : ZipFile) :
  fst (_download_with_curl net k url zip) = Ok true ->
  exists size, snd (_download_with_curl net k url zip) = Some size /\ (0 < size)%Z.
Proof.
  unfold _download_with_curl.
  destruct (net k url zip) as [[rc|] [size|]]; simpl; try discriminate.
  - destruct (Z.eqb rc 0); simpl; [|discriminate].
    intro H; injection H as H; exists size; split; [reflexivity | apply Z.ltb_lt; exact H].
  - destruct (Z.eqb rc 0); discriminate.
Qed.

Lemma download_attempts_result (net : Network) (t : RepoTask) (zip : ZipFile) :
  let '((ok, repo_id, msg), calls, final) := download_attempts net t zip in
  repo_id = task_repo_id t /\
  (ok = true -> exists size d, final = Some size /\ (0 < size)%Z /\ msg = MsgDownloaded size d) /\
  (ok = false ->
     calls = [(py_str_opt (task_download_url t), zip); (fallback_url t, None)] /\
     final = cr_file (net 1 (fallback_url t) None)).
Proof.
  unfold download_attempts, unlink.
  pose proof (download_with_curl_nonempty net 0 (py_str_opt (task_download_url t)) zip) as H0.
  pose proof (download_with_curl_nonempty net 1 (fallback_url t) None) as H1.
  pose proof (download_with_curl_file net 1 (fallback_url t) None) as F1.
  destruct (_download_with_curl net 0 (py_str_opt (task_download_url t)) zip) as [r0 z0].
  destruct (_download_with_curl net 1 (fallback_url t) None) as [r1 z2].
  simpl in H0, H1, F1.
  destruct r0 as [[|]|e0]; [|destruct r1 as [[|]|e1]..]; simpl.
  - destruct (H0 eq_refl) as [size [-> Hs]].
    split; [reflexivity|]; split; [|discriminate].
    intros _; exists size, (primary_branch t); repeat split; assumption.
  - destruct (H1 eq_refl) as [size [-> Hs]].
    split; [reflexivity|]; split; [|discriminate].
    intros _; exists size, (fallback_branch t ++ " (fallback)")%string; repeat split; assumption.
  - split; [reflexivity|]; split; [discriminate|]; intros _; split; [reflexivity | exact F1].
  - split; [reflexivity|]; split; [discriminate|]; intros _; split; [reflexivity | exact F1].
  - destruct (H1 eq_refl) as [size [-> Hs]].
    split; [reflexivity|]; split; [|discriminate].
    intros _; exists size, (fallback_branch t ++ " (fallback)")%string; repeat split; assumption.
  - split; [reflexivity|]; split; [discriminate|]; intros _; split; [reflexivity | exact F1].
  - split; [reflexivity|]; split; [discriminate|]; intros _; split; [reflexivity | exact F1].
Qed.

(** An existing non-empty archive short-circuits [download_repo]. *)
Lemma download_repo_existing (net : Network) (t : RepoTask) (size : Z) :
  (0 < size)%Z ->
  download_repo net t (Some size) = ((true, task_repo_id t, MsgAlreadyExists size), [], Some size).
Proof. intro H; simpl; apply Z.ltb_lt in H; rewrite H; reflexivity. Qed.

Lemma download_repo_attempts (net : Network) (t : RepoTask) (zip : ZipFile) :
  (forall size, zip = Some size -> (size <= 0)%Z) ->
  download_repo net t zip = download_attempts net t zip.
Proof.
  intro H; destruct zip as [size|]; [|reflexivity]; simpl.
  specialize (H size eq_refl); destruct (Z.ltb_spec 0 size); [lia | reflexivity].
Qed.

(** X1: a successful [download_repo] leaves a non-empty archive, and every
    later call for the same task reports it as already there without
    running [curl]: downloading is idempotent. *)
Theorem download_repo_idempotent (net : Network) (t : RepoTask) (zip : ZipFile) :
  let '((ok, repo_id, msg), _, final) := download_repo net t zip in
  ok = true ->
  repo_id = task_repo_id t /\
  (exists size, final = Some size /\ (0 < size)%Z /\
     (msg = MsgAlreadyExists size \/ exists d, msg = MsgDownloaded size d)) /\
  forall net', download_repo net' t final =
               ((true, task_repo_id t, MsgAlreadyExists (zip_size final)), [], final).
Proof.
  destruct zip as [size|] eqn:Ez; [destruct (Z.ltb_spec 0 size) as [Hs|Hs]|].
  - rewrite (download_repo_existing net t size Hs).
    intros _; split; [reflexivity|]; split.
    + exists size; split; [reflexivity|]; split; [exact Hs | left; reflexivity].
    + intro net'; exact (download_repo_existing net' t size Hs).
  - rewrite (download_repo_attempts net t (Some size)) by (intros s' E; injection E as <-; lia).
    pose proof (download_attempts_result net t (Some size)) as R.
    destruct (download_attempts net t (Some size)) as [[[[ok rid] msg] calls] final].
    destruct R as [Hid [Hok _]]; intro Htrue; subst ok.
    destruct (Hok eq_refl) as [sz [d [-> [Hsz ->]]]].
    split; [exact Hid|]; split.
    + exists sz; split; [reflexivity|]; split; [exact Hsz | right; exists d; reflexivity].
    + intro net'; exact (download_repo_existing net' t sz Hsz).
  - rewrite (download_repo_attempts net t None) by discriminate.
    pose proof (download_attempts_result net t None) as R.
    destruct (download_attempts net t None) as [[[[ok rid] msg] calls] final].
    destruct R as [Hid [Hok _]]; intro Htrue; subst ok.
    destruct (Hok eq_refl) as [sz [d [-> [Hsz ->]]]].
    split; [exact Hid|]; split.
    + exists sz; split; [reflexivity|]; split; [exact Hsz | right; exists d; reflexivity].
    + intro net'; exact (download_repo_existing net' t sz Hsz).
Qed.

(** X2: a failed [download_repo] has run [curl] twice, the second time on a
    removed archive, and leaves behind whatever that second run wrote; when
    the leftover is non-empty, the next call takes it for a downloaded
    archive and reports [Already exists] without running [curl]. *)
Theorem download_repo_failure_leftover (net : Network) (t : RepoTask) (zip : ZipFile) :
  let '((ok, _, _), calls, final) := download_repo net t zip in
  ok = false ->
  calls = [(py_str_opt (task_download_url t), zip); (fallback_url t, None)] /\
  final = cr_file (net 1 (fallback_url t) None) /\
  forall size, final = Some size -> (0 < size)%Z ->
    forall net', download_repo net' t final =
                 ((true, task_repo_id t, MsgAlreadyExists size), [], final).
Proof.
  assert (Hmain : forall zip', (forall size, zip' = Some size -> (size <= 0)%Z) ->
    let '((ok, _, _), calls, final) := download_repo net t zip' in
    ok = false ->
    calls = [(py_str_opt (task_download_url t), zip'); (fallback_url t, None)] /\
    final = cr_file (net 1 (fallback_url t) None) /\
    forall size, final = Some size -> (0 < size)%Z ->
      forall net', download_repo net' t final =
                   ((true, task_repo_id t, MsgAlreadyExists size), [], final)).
  { intros zip' Hz; rewrite (download_repo_attempts net t zip' Hz).
    pose proof (download_attempts_result net t zip') as R.
    destruct (download_attempts net t zip') as [[[[ok rid] msg] calls] final].
    destruct R as [_ [_ Hko]]; intro Hf; destruct (Hko Hf) as [Hc Hfin].
    split; [exact Hc|]; split; [exact Hfin|].
    intros size -> Hs net'; exact (download_repo_existing net' t size Hs). }
  destruct zip as [size|]; [destruct (Z.ltb_spec 0 size) as [Hs|Hs]|].
  - rewrite (download_repo_existing net t size Hs); discriminate.
  - apply Hmain; intros s' E; injection E as <-; exact Hs.
  - apply Hmain; discriminate.
Qed.

(** ** [download_all] *)

Lemma count_download_one (res : bool * string * DownloadMsg) (st : DownloadStats) :
  ds_total (count_download res st) = ds_total st /\
  counted (count_download res st) = S (counted st).
Proof.
  destruct res as [[ok rid] msg]; destruct st as [tt sc fc kc]; unfold count_download, counted.
  destruct ok; [destruct (py_in _ _)|]; simpl; split; lia.
Qed.

Lemma download_each_counts (net : Network) (l : list RepoTask) (z : ZipStore) (st : DownloadStats) :
  ds_total (fst (download_each net l z st)) = ds_total st /\
  counted (fst (download_each net l z st)) = counted st + List.length l.
Proof.
  revert z st; induction l as [|t l IH]; intros z st; simpl.
  - split; lia.
  - destruct (download_repo net t (z (zip_filename t))) as [[res calls] zip'].
    destruct (IH (store_set z (zip_filename t) zip') (count_download res st)) as [H1 H2].
    destruct (count_download_one res st) as [E1 E2].
    split; [congruence | lia].
Qed.

Lemma sliced_length (A : Type) (l : list A) (limit : option nat) :
  List.length (match limit with Some (S _ as n) => firstn n l | _ => l end) =
  match limit with Some (S k) => Nat.min (S k) (List.length l) | _ => List.length l end.
Proof. destruct limit as [[|k]|]; try reflexivity; apply length_firstn. Qed.

(** X3: [download_all] reports as [total] the number of mapping entries
    after the [limit] cut, and counts every one of them exactly once, as
    [success], [failed] or [skipped]. *)
Theorem download_all_counts (net : Network) (repo_mapping : list RepoTask)
  (limit : option nat) (z : ZipStore) :
  let st := fst (download_all net repo_mapping limit z) in
  ds_total st = match limit with
                | Some (S k) => Nat.min (S k) (List.length repo_mapping)
                | _ => List.length repo_mapping
                end /\
  ds_success st + ds_failed st + ds_skipped st = ds_total st.
Proof.
  unfold download_all.
  rewrite <- (sliced_length _ repo_mapping limit).
  set (l := match limit with Some (S _ as n) => firstn n repo_mapping | _ => repo_mapping end).
  destruct (download_each_counts net l z (mkDownloadStats (List.length l) 0 0 0)) as [H1 H2].
  unfold counted in H2; simpl in H1, H2; cbv zeta.
  split; [exact H1 | rewrite H1; lia].
Qed.

Lemma count_preexisting_set (z : ZipStore) (name : string) (zip : ZipFile) (l : list RepoTask) :
  ~ In name (map zip_filename l) ->
  count_preexisting (store_set z name zip) l = count_preexisting z l.
Proof.
  unfold count_preexisting; induction l as [|t l IH]; intro Hn; [reflexivity|].
  simpl in Hn |- *; unfold store_set at 1.
  destruct (String.eqb_spec (zip_filename t) name) as [E|E].
  - exfalso; apply Hn; left; exact E.
  - destruct (preexisting (z (zip_filename t))); simpl; rewrite IH by tauto; reflexivity.
Qed.

Lemma msg_already_exists (size : Z) : py_in "Already exists" (msg_text (MsgAlreadyExists size)) = true.
Proof. reflexivity. Qed.

Lemma download_each_skipped (net : Network) (l : list RepoTask) (z : ZipStore) (st : DownloadStats) :
  NoDup (map zip_filename l) ->
  ds_skipped st + count_preexisting z l <= ds_skipped (fst (download_each net l z st)).
Proof.
  revert z st; induction l as [|t l IH]; intros z st Hnd; simpl; [unfold count_preexisting; simpl; lia|].
  inversion Hnd as [|? ? Hnin Hnd']; subst.
  unfold count_preexisting; simpl; fold (count_preexisting z l).
  assert (Hmono : forall res st0,
             ds_skipped st0 <= ds_skipped (count_download res st0)).
  { intros [[ok rid] msg] [tt sc fc kc]; unfold count_download.
    destruct ok; [destruct (py_in _ _)|]; simpl; lia. }
  destruct (preexisting (z (zip_filename t))) eqn:Hpre.
  - destruct (z (zip_filename t)) as [size|] eqn:Ez; [|discriminate].
    simpl in Hpre; apply Z.ltb_lt in Hpre.
    rewrite (download_repo_existing net t size Hpre).
    pose proof (IH (store_set z (zip_filename t) (Some size))
                   (count_download (true, task_repo_id t, MsgAlreadyExists size) st) Hnd') as H.
    rewrite count_preexisting_set in H by exact Hnin.
    destruct st as [tt sc fc kc]; unfold count_download in H |- *.
    rewrite msg_already_exists in H; unfold count_preexisting in H; simpl in *; lia.
  - destruct (download_repo net t (z (zip_filename t))) as [[res calls] zip'].
    pose proof (IH (store_set z (zip_filename t) zip') (count_download res st) Hnd') as H.
    rewrite count_preexisting_set in H by exact Hnin.
    specialize (Hmono res st); unfold count_preexisting in H; simpl; lia.
Qed.

(** X4: when the entries after the [limit] cut name distinct archive files,
    every entry whose archive already exists with a non-empty size is
    counted as [skipped]. *)
Theorem download_all_skips_existing (net : Network) (repo_mapping : list RepoTask)
  (limit : option nat) (z : ZipStore) :
  let l := match limit with Some (S _ as n) => firstn n repo_mapping | _ => repo_mapping end in
  NoDup (map zip_filename l) ->
  count_preexisting z l <= ds_skipped (fst (download_all net repo_mapping limit z)).
Proof.
  intros l Hnd; unfold download_all; fold l.
  pose proof (download_each_skipped net l z (mkDownloadStats (List.length l) 0 0 0) Hnd) as H.
  simpl in H; exact H.
Qed.

(** X5: the [skipped] count relies on the text of the message: an entry
    whose branch contains ["Already exists"] and which is downloaded now,
    on the first attempt, is counted as [skipped], not as [success]. *)
Theorem download_all_branch_text_skipped (net : Network) (t : RepoTask) (z : ZipStore) :
  (forall size, z (zip_filename t) = Some size -> (size <= 0)%Z) ->
  attempt_ok (net 0 (py_str_opt (task_download_url t)) (z (zip_filename t))) = true ->
  py_in "Already exists" (primary_branch t) = true ->
  fst (download_all net [t] None z) = mkDownloadStats 1 0 0 1.
Proof.
  intros Hfresh Hok Hbr.
  unfold download_all; simpl.
  rewrite (download_repo_attempts net t _ Hfresh).
  unfold download_attempts.
  pose proof (proj2 (download_with_curl_ok net 0 (py_str_opt (task_download_url t))
                       (z (zip_filename t))) Hok) as H0.
  destruct (_download_with_curl net 0 _ _) as [r0 zip0]; simpl in H0; subst r0.
  cbn -[msg_text py_in].
  assert (Hin : py_in "Already exists"
                  (msg_text (MsgDownloaded (zip_size zip0) (primary_branch t))) = true).
  { unfold msg_text.
    apply py_in_app_l, py_in_app_l, py_in_app_l, py_in_app_r; exact Hbr. }
  rewrite Hin; reflexivity.
Qed.

(** ** [_extract_number] *)

Lemma digit_char_val (d : nat) : d < 10 -> nat_of_ascii (digit_char d) = 48 + d.
Proof. intro H; unfold digit_char; apply nat_ascii_embedding; lia. Qed.

Lemma digit_char_digit (d : nat) : d < 10 -> is_digit (digit_char d) = true.
Proof.
  intro H; unfold is_digit; rewrite digit_char_val by exact H.
  apply andb_true_intro; split; apply Nat.leb_le; lia.
Qed.

Lemma digits_fuel_digits (f n : nat) (acc : string) :
  all_digits acc = true -> all_digits (digits_fuel f n acc) = true.
Proof.
  revert n acc; induction f as [|f IH]; intros n acc H; [exact H|]; cbn [digits_fuel].
  assert (Hd : all_digits (String (digit_char (n mod 10)) acc) = true).
  { unfold all_digits; cbn [list_ascii_of_string forallb].
    rewrite digit_char_digit by (apply Nat.mod_upper_bound; lia).
    exact H. }
  destruct (n <? 10); [exact Hd | apply IH; exact Hd].
Qed.

Lemma digits_fuel_nonempty (f n : nat) (c : ascii) (acc : string) :
  exists c' acc', digits_fuel f n (String c acc) = String c' acc'.
Proof.
  revert n c acc; induction f as [|f IH]; intros n c acc; [eexists; eexists; reflexivity|];
  cbn [digits_fuel].
  destruct (n <? 10); [eexists; eexists; reflexivity | apply IH].
Qed.

Lemma digits_fuel_value (f n : nat) (acc : string) :
  n < f -> int_of_digits 0 (digits_fuel f n acc) = int_of_digits n acc.
Proof.
  revert n acc; induction f as [|f IH]; intros n acc Hf; [lia|]; cbn [digits_fuel].
  assert (Hm : n mod 10 < 10) by (apply Nat.mod_upper_bound; lia).
  destruct (Nat.ltb_spec n 10) as [Hl|Hl].
  - cbn [int_of_digits]; rewrite digit_char_val by exact Hm.
    rewrite Nat.mod_small by exact Hl; f_equal; lia.
  - rewrite IH.
    + cbn [int_of_digits]; rewrite digit_char_val by exact Hm; f_equal.
      pose proof (Nat.div_mod n 10); lia.
    + assert (n / 10 < n) by (apply Nat.div_lt; lia); lia.
Qed.

Lemma str_nat_value (n : nat) : int_of_digits 0 (str_nat n) = n.
Proof. unfold str_nat; rewrite digits_fuel_value by lia; reflexivity. Qed.

Lemma search_digits_skip (p s : string) :
  no_digit p = true -> search_digits (p ++ s) = search_digits s.
Proof.
  induction p as [|c p IH]; intro H; [reflexivity|].
  unfold no_digit in H; simpl in H; apply andb_true_iff in H as [Hc Hp].
  simpl; apply negb_true_iff in Hc; rewrite Hc; apply IH; exact Hp.
Qed.

Lemma digit_run_app (x r : string) :
  all_digits x = true ->
  match r with EmptyString => True | String c _ => is_digit c = false end ->
  digit_run (x ++ r) = x.
Proof.
  intros Hx Hr; induction x as [|c x IH].
  - destruct r as [|c r]; [reflexivity|]; simpl; rewrite Hr; reflexivity.
  - unfold all_digits in Hx; simpl in Hx; apply andb_true_iff in Hx as [Hc Hx].
    simpl; rewrite Hc, IH by exact Hx; reflexivity.
Qed.

(** X6: [_extract_number] reads back the number written in a file name:
    for a prefix without digits (such as ["openclaw_"]) and a rest that
    does not start with a digit (such as [".zip"]), the number of
    [prefix ++ str(n) ++ rest] is [n]. *)
Theorem _extract_number_str_nat (prefix rest : string) (n : nat) :
  no_digit prefix = true ->
  match rest with EmptyString => True | String c _ => is_digit c = false end ->
  _extract_number (prefix ++ str_nat n ++ rest) = n.
Proof.
  intros Hp Hr; unfold _extract_number.
  rewrite search_digits_skip by exact Hp.
  assert (Hd : all_digits (str_nat n) = true) by (apply digits_fuel_digits; reflexivity).
  assert (Hs : exists c' x', str_nat n = String c' x').
  { unfold str_nat; cbn [digits_fuel].
    destruct (n <? 10); [eexists; eexists; reflexivity | apply digits_fuel_nonempty]. }
  destruct Hs as [c' [x' Hs]].
  assert (Hc' : is_digit c' = true).
  { rewrite Hs in Hd; unfold all_digits in Hd; cbn [list_ascii_of_string forallb] in Hd.
    apply andb_true_iff in Hd; tauto. }
  rewrite Hs; cbn [append search_digits]; rewrite Hc'.
  change (String c' (x' ++ rest))%string with (String c' x' ++ rest)%string; rewrite <- Hs.
  rewrite digit_run_app by assumption.
  apply str_nat_value.
Qed.

(** ** The order of [scan_all] *)

Lemma insert_by_number_perm (x : string) (l : list string) :
  Permutation (x :: l) (insert_by_number x l).
Proof.
  induction l as [|y l IH]; simpl; [reflexivity|].
  destruct (_extract_number x <=? _extract_number y); [reflexivity|].
  eapply perm_trans; [apply perm_swap|]; apply perm_skip; exact IH.
Qed.

Lemma sort_by_number_perm (l : list string) : Permutation l (sort_by_number l).
Proof.
  induction l as [|x l IH]; simpl; [reflexivity|].
  eapply perm_trans; [apply perm_skip; exact IH | apply insert_by_number_perm].
Qed.

Lemma insert_by_number_sorted (x : string) (l : list string) :
  Sorted by_number l -> Sorted by_number (insert_by_number x l).
Proof.
  induction 1 as [|y l Hs IH Hhd]; simpl; [repeat constructor|].
  destruct (Nat.leb_spec (_extract_number x) (_extract_number y)) as [Hle|Hgt].
  - constructor; [constructor; assumption | constructor; exact Hle].
  - constructor; [exact IH|].
    destruct l as [|z l]; simpl.
    + constructor; unfold by_number; lia.
    + inversion Hhd; subst.
      destruct (_extract_number x <=? _extract_number z); constructor; unfold by_number in *; lia.
Qed.

(** X7: [scan_all]'s [sort] puts the archives in non-decreasing order of
    their [_extract_number] and keeps every one of them: the sorted list is
    a permutation of the listed files. *)
Theorem sort_by_number_spec (zip_files : list string) :
  Permutation zip_files (sort_by_number zip_files) /\
  Sorted by_number (sort_by_number zip_files).
Proof.
  split; [apply sort_by_number_perm|].
  induction zip_files as [|x l IH]; simpl; [constructor | apply insert_by_number_sorted; exact IH].
Qed.

(** ** The configuration *)

Lemma split_dot_nonempty (s : string) : split_dot s <> [].
Proof.
  induction s as [|c s IH]; simpl; [discriminate|].
  destruct (Ascii.eqb c "."); [discriminate|].
  destruct (split_dot s); discriminate.
Qed.

Lemma split_dot_app (k s : string) :
  no_dot k = true ->
  split_dot (k ++ s) = match split_dot s with w :: ws => (k ++ w)%string :: ws | [] => [k] end.
Proof.
  induction k as [|c k IH]; intro H.
  - simpl; destruct (split_dot s) eqn:E; [contradiction (split_dot_nonempty s E) | reflexivity].
  - unfold no_dot in H; simpl in H; apply andb_true_iff in H as [Hc Hk].
    apply negb_true_iff in Hc.
    simpl; rewrite Hc, (IH Hk).
    destruct (split_dot s) eqn:E; [contradiction (split_dot_nonempty s E) | reflexivity].
Qed.

Lemma append_empty_r (s : string) : (s ++ "")%string = s.
Proof. induction s as [|c s IH]; simpl; [reflexivity | rewrite IH; reflexivity]. Qed.

Lemma split_dot_concat (ks : list string) :
  ks <> [] -> forallb no_dot ks = true -> split_dot (String.concat "." ks) = ks.
Proof.
  induction ks as [|k ks IH]; intros Hne Hk; [contradiction|].
  simpl in Hk; apply andb_true_iff in Hk as [Hk Hks].
  destruct ks as [|k' ks'].
  - simpl; rewrite <- (append_empty_r k) at 1; rewrite split_dot_app by exact Hk.
    simpl; rewrite append_empty_r; reflexivity.
  - change (String.concat "." (k :: k' :: ks')) with (k ++ "." ++ String.concat "." (k' :: ks'))%string.
    rewrite split_dot_app by exact Hk.
    assert (E : split_dot ("." ++ String.concat "." (k' :: ks'))%string =
                "" :: split_dot (String.concat "." (k' :: ks'))) by reflexivity.
    rewrite E, (IH ltac:(discriminate) Hks), append_empty_r; reflexivity.
Qed.

Lemma get_keys_nest (ks : list string) (v default : json) :
  v <> JNull -> get_keys ks (nest ks v) default = v.
Proof.
  intro Hv; induction ks as [|k ks IH]; [reflexivity|]; simpl.
  rewrite String.eqb_refl.
  destruct ks as [|k' ks']; [destruct v; [contradiction|..]; reflexivity | exact IH].
Qed.

(** X8: [Config.get] reads back a value stored under nested mappings: for
    keys [k1], ..., [kn] (at least one) none of which contains ['.'], the
    configuration [{k1: {k2: ... {kn: v}}}] gives [v] for the dotted key
    ['k1.k2....kn'], whatever the default, for any [v] other than [None]
    (falsy values such as [0] or [""] included). *)
Theorem get_nested_roundtrip (ks : list string) (v default : json) :
  ks <> [] -> forallb no_dot ks = true -> v <> JNull ->
  get (nest ks v) (String.concat "." ks) default = v.
Proof.
  intros Hne Hks Hv; unfold get; rewrite split_dot_concat by assumption.
  apply get_keys_nest; exact Hv.
Qed.

Lemma until_brace_in (u v : string) : until_brace u = Some v -> py_in "}" u = true.
Proof.
  revert v; induction u as [|c u IH]; intros v H; [discriminate|].
  simpl in H |- *.
  destruct (Ascii.eqb_spec c "}") as [->|Hc].
  - destruct u; reflexivity.
  - destruct (until_brace u) as [w|] eqn:E; [|discriminate].
    rewrite (IH w eq_refl), orb_true_r; reflexivity.
Qed.

Lemma py_in_cons (n : string) (c : ascii) (s : string) :
  py_in n s = true -> py_in n (String c s) = true.
Proof. intro H; simpl; rewrite H, orb_true_r; reflexivity. Qed.

Lemma env_var_match_in (s v : string) :
  env_var_match s = Some v -> py_in "${" s = true /\ py_in "}" s = true.
Proof.
  revert v; induction s as [|c s IH]; intros v H; [discriminate|].
  cbn [env_var_match] in H.
  destruct s as [|c' after] eqn:Es; [discriminate|].
  destruct (Ascii.eqb c "$" && Ascii.eqb c' "{") eqn:Ed.
  - apply andb_true_iff in Ed as [E1 E2].
    apply Ascii.eqb_eq in E1, E2; subst c c'.
    destruct (until_brace after) as [[|x w]|] eqn:Eu.
    + destruct (IH v H) as [H1 H2]; split; apply py_in_cons; assumption.
    + split; [clear; destruct after; reflexivity|].
      apply py_in_cons, py_in_cons, (until_brace_in after _ Eu).
    + destruct (IH v H) as [H1 H2]; split; apply py_in_cons; assumption.
  - destruct (IH v H) as [H1 H2]; split; apply py_in_cons; assumption.
Qed.

(** The value [get_with_env_fallback] returns for a configured string. *)
Lemma get_with_env_fallback_str (_config : json) (environ : Environ)
  (config_key env_key default s : string) :
  get _config config_key (JStr "") = JStr s ->
  get_with_env_fallback _config environ config_key env_key default =
  Ok (JStr (if String.eqb s "" then environ_get environ env_key default
            else match env_var_match s with
                 | Some env_var => environ_get environ env_var default
                 | None => s
                 end)).
Proof.
  intro H; unfold get_with_env_fallback; rewrite H; unfold truthy.
  destruct (String.eqb_spec s "") as [->|Hne]; [reflexivity|]; simpl.
  destruct (env_var_match s) as [v|] eqn:Em.
  - destruct (env_var_match_in s v Em) as [-> ->]; reflexivity.
  - destruct (py_in "${" s && py_in "}" s); reflexivity.
Qed.

(** X9: for a configured string (or a missing key, read as [""]), the
    result of [get_with_env_fallback] is the environment variable [env_key]
    when the string is empty, the environment variable named by the first
    [${VAR}] reference when the string holds one, and the string itself
    otherwise; [default] stands for an unset variable. *)
Theorem get_with_env_fallback_string (_config : json) (environ : Environ)
  (config_key env_key default s : string) :
  get _config config_key (JStr "") = JStr s ->
  get_with_env_fallback _config environ config_key env_key default =
  Ok (JStr (if String.eqb s "" then environ_get environ env_key default
            else match env_var_match s with
                 | Some env_var => environ_get environ env_var default
                 | None => s
                 end)).
Proof. exact (get_with_env_fallback_str _config environ config_key env_key default s). Qed.

Lemma until_brace_app (v rest : string) :
  no_brace v = true -> until_brace (v ++ "}" ++ rest) = Some v.
Proof.
  induction v as [|c v IH]; intro H; [reflexivity|].
  unfold no_brace in H; simpl in H; apply andb_true_iff in H as [Hc Hv].
  apply negb_true_iff in Hc; pose proof (IH Hv) as E; simpl in E |- *; rewrite Hc, E; reflexivity.
Qed.

(** X10: a configured value ["${VAR}"], with [VAR] non-empty and without
    ['}'], followed by any text, resolves to the environment variable
    [VAR] ([default] when it is unset). *)
Theorem get_with_env_fallback_reference (_config : json) (environ : Environ)
  (config_key env_key default var rest : string) :
  get _config config_key (JStr "") = JStr ("${" ++ var ++ "}" ++ rest) ->
  var <> "" -> no_brace var = true ->
  get_with_env_fallback _config environ config_key env_key default =
  Ok (JStr (environ_get environ var default)).
Proof.
  intros H Hne Hb; rewrite (get_with_env_fallback_str _ _ _ _ _ _ H).
  pose proof (until_brace_app var rest Hb) as E; simpl in E |- *; rewrite E.
  destruct var as [|c v]; [contradiction|]; reflexivity.
Qed.

(** ** [get_risk_dir] *)

(** X12: [get_risk_dir] is case-insensitive and accepts exactly the five
    tier names: it returns [workspace_dir / level] when the lower-cased
    argument is one of [critical], [high], [medium], [low], [safe], and
    raises [ValueError] otherwise.  In particular the upper-case keys of
    [risk_dirs] map to their tier's directory, while ['UNKNOWN'] has none. *)
Theorem get_risk_dir_levels (workspace_dir : PyPath) (risk_level : string) :
  (forall p, get_risk_dir workspace_dir risk_level = Ok p <->
             exists t, py_lower risk_level = tier_dir t /\ p = workspace_dir ++ [tier_dir t]) /\
  ((forall t, py_lower risk_level <> tier_dir t) ->
   exists e, get_risk_dir workspace_dir risk_level = Exc e) /\
  (forall t, get_risk_dir workspace_dir (risk_name (tier_risk t)) =
             Ok (workspace_dir ++ [tier_dir t])) /\
  (exists e, get_risk_dir workspace_dir (risk_name UNKNOWN) = Exc e).
Proof.
  split; [|split; [|split]].
  - intro p; unfold get_risk_dir.
    destruct (existsb (String.eqb (py_lower risk_level)) valid_levels) eqn:E.
    + apply existsb_exists in E as [x [Hx Heq]]; apply String.eqb_eq in Heq.
      split.
      * intro Hp; injection Hp as <-.
        simpl in Hx; rewrite Heq.
        destruct Hx as [<-|[<-|[<-|[<-|[<-|[]]]]]];
          [exists TCritical | exists THigh | exists TMedium | exists TLow | exists TSafe];
          split; reflexivity.
      * intros [t [Ht ->]]; rewrite Ht; reflexivity.
    + split; [discriminate|].
      intros [t [Ht _]]; rewrite Ht in E; destruct t; discriminate.
  - intro Hn; unfold get_risk_dir.
    destruct (existsb (String.eqb (py_lower risk_level)) valid_levels) eqn:E;
      [|eexists; reflexivity].
    apply existsb_exists in E as [x [Hx Heq]]; apply String.eqb_eq in Heq.
    exfalso; simpl in Hx.
    destruct Hx as [<-|[<-|[<-|[<-|[<-|[]]]]]];
      [apply (Hn TCritical) | apply (Hn THigh) | apply (Hn TMedium) | apply (Hn TLow)
      | apply (Hn TSafe)]; exact Heq.
  - intro t; destruct t; reflexivity.
  - eexists; reflexivity.
Qed.

(** X15: [scan_repo] raises exactly when no report exists yet and either
    [repo_dir/{repo_id}] is a plain file (so [any(target_path.iterdir())]
    raises), or the repository is there to scan (extracted earlier, or
    unpacked now from a non-empty archive), it holds at least one bundle, and
    [json.dump] of the report fails; every other run returns a
    [(status, risk_level, count)] triple. *)
Theorem scan_repo_raises_iff (env : Env) (repo_id : string) (st : Stats) :
  (exists e, fst (run (scan_repo env repo_id) st) = Exc e) <->
  find_existing env repo_id = None /\
  (env_target env repo_id = TgtFile \/
   (extracts env repo_id = true /\
    find_skill_dirs (env_tree env repo_id) <> [] /\ env_dump_ok env repo_id = false)).
Proof.
  unfold extracts; scan_cases env repo_id.
  all: split; [intros [e He] | intros (H1 & [H2 | (H2 & H3 & H4)])];
    try discriminate; try congruence.
  all: first [eexists; reflexivity
             | split; [reflexivity|]; first [left; reflexivity
                                           | right; repeat split; try reflexivity; discriminate]].
Qed.

(** X16: when no report exists yet and the extracted repository holds no
    bundle, [scan_repo] returns [('skipped', 'UNKNOWN', 0)].  If the
    extracted repository is a directory it is removed: afterwards
    [repo_dir/{repo_id}] is gone, whatever was there before.  If it is a
    plain file (an archive whose single entry is a file), [rmtree] leaves it:
    after a fresh extraction the file stays at [repo_dir/{repo_id}]. *)
Theorem scan_repo_no_skills_removed (env : Env) (repo_id : string) (st : Stats) (m0 : fs) :
  find_existing env repo_id = None -> extracts env repo_id = true ->
  find_skill_dirs (env_tree env repo_id) = [] ->
  let tr := ss_trace (snd (run (scan_repo env repo_id) st)) in
  fst (run (scan_repo env repo_id) st) = Ok ("skipped", "UNKNOWN", 0) /\
  (is_dir (env_tree env repo_id) = true -> fs_lookup (fs_after m0 tr) (PRepo repo_id) = None) /\
  (is_dir (env_tree env repo_id) = false -> env_target env repo_id = TgtEmpty ->
   fs_lookup (fs_after m0 tr) (PRepo repo_id) = Some true).
Proof.
  intros H1 H2 H3; cbv zeta; unfold extracts in H2; scan_cases env repo_id.
  all: try discriminate; try congruence.
  all: split; [reflexivity|].
  all: split; intros Hd; try discriminate; try (intros Ht; congruence).
  all: try (intros _).
  all: try (match goal with
            | |- fs_lookup (filter _ ?m) ?p = None =>
              change (fs_lookup (fs_del m p) p = None)
            end; apply lookup_del).
  all: try apply lookup_del.
  all: rewrite lookup_set;
       match goal with
       | |- fs_lookup (filter _ ?m) ?p = _ => change (fs_lookup (fs_del m (PTemp repo_id)) p = Some true)
       end;
       rewrite lookup_del_other by reflexivity; apply lookup_set.
Qed.

Lemma count_level_total (th : Thresholds) (reps : list SkillReport) :
  count_level th reps CRITICAL + count_level th reps HIGH + count_level th reps MEDIUM +
  count_level th reps LOW + count_level th reps SAFE + count_level th reps UNKNOWN =
  List.length reps.
Proof.
  induction reps as [|rep reps IH]; [reflexivity|]; unfold count_level in *; simpl.
  destruct (classify th (risk_score rep)); simpl; lia.
Qed.

Lemma findings_count_flat_map (reps : list SkillReport) :
  findings_count reps = List.length (flat_map findings reps).
Proof.
  induction reps as [|rep reps IH]; [reflexivity|].
  unfold findings_count in *; simpl; rewrite length_app; lia.
Qed.

(** X17: every report [scan_repo] saves is internally consistent.  With
    counts, its [total_skills] equals the summary's, [total_issues] is the
    length of [all_issues], the per-level counts add up to [total_skills]
    with none at [UNKNOWN], and the saved [risk_level] is a level whose count
    is positive; with a reason, the reason is ['No skills scanned'], the
    level ['UNKNOWN'], and there are no skills and no issues. *)
Theorem saved_report_summary (env : Env) (repo_id : string) (st : Stats)
  (p : path) (rep : RepoReport) :
  In (EvDump p rep) (ss_trace (snd (run (scan_repo env repo_id) st))) ->
  match rr_risk_summary rep with
  | SumCounts risk_counts total_skills total_issues =>
    total_skills = rr_total_skills rep /\
    total_issues = List.length (rr_all_issues rep) /\
    counts_total risk_counts = total_skills /\
    cget risk_counts UNKNOWN = 0 /\
    (exists r, rr_risk_level rep = risk_name r /\ 0 < cget risk_counts r)
  | SumReason reason =>
    reason = "No skills scanned" /\ rr_risk_level rep = "UNKNOWN" /\
    rr_total_skills rep = 0 /\ rr_all_issues rep = []
  end.
Proof.
  intro H; apply scan_repo_saved in H; cbv zeta in H.
  remember (collect_reports env repo_id (find_skill_dirs (env_tree env repo_id))) as reps eqn:Er.
  clear Er; destruct reps as [|r0 rs].
  - cbn [calculate_repo_risk] in H; destruct H as [_ [-> _]].
    repeat split; reflexivity.
  - pose proof (calculate_repo_risk_counted (env_thresholds env) (r0 :: rs)
                  ltac:(discriminate)) as Hc.
    destruct (calculate_repo_risk _ (r0 :: rs)) as [v summ].
    destruct Hc as [rc [ti [-> [Hrc [Hti [Hpos _]]]]]].
    destruct H as [_ [-> _]]; cbn [_generate_report rr_risk_summary rr_total_skills
                                   rr_all_issues rr_risk_level].
    split; [reflexivity|]; split; [rewrite Hti; apply findings_count_flat_map|].
    split; [|split; [rewrite Hrc; apply count_level_unknown | exists v; split; [reflexivity | exact Hpos]]].
    unfold counts_total.
    pose proof (Hrc CRITICAL); pose proof (Hrc HIGH); pose proof (Hrc MEDIUM);
      pose proof (Hrc LOW); pose proof (Hrc SAFE); pose proof (Hrc UNKNOWN); cbn [cget] in *.
    pose proof (count_level_total (env_thresholds env) (r0 :: rs)); lia.
Qed.

(** The counts of [calculate_repo_risk], level by level. *)
Definition level_counts (th : Thresholds) (reps : list SkillReport) : Counts :=
  mkCounts (count_level th reps CRITICAL) (count_level th reps HIGH)
           (count_level th reps MEDIUM) (count_level th reps LOW)
           (count_level th reps SAFE) (count_level th reps UNKNOWN).

Lemma calculate_repo_risk_levels (th : Thresholds) (reps : list SkillReport) :
  reps <> [] ->
  calculate_repo_risk th reps =
  (snd (fold_left (max_step (level_counts th reps)) risk_keys (0, UNKNOWN)),
   SumCounts (level_counts th reps) (List.length reps) (findings_count reps)).
Proof.
  intro Hne; destruct reps as [|rep0 reps']; [contradiction|].
  unfold calculate_repo_risk.
  pose proof (count_fold th (rep0 :: reps') counts0 0) as Hc.
  destruct (fold_left (count_step th) (rep0 :: reps') (counts0, 0)) as [rc ti].
  destruct Hc as [Hrc Hti].
  assert (E : rc = level_counts th (rep0 :: reps')).
  { destruct rc; unfold level_counts; f_equal;
      [apply (Hrc CRITICAL) | apply (Hrc HIGH) | apply (Hrc MEDIUM) | apply (Hrc LOW)
      | apply (Hrc SAFE) | apply (Hrc UNKNOWN)]. }
  subst rc ti; destruct (fold_left _ risk_keys (0, UNKNOWN)); reflexivity.
Qed.

Lemma count_level_perm (th : Thresholds) (l l' : list SkillReport) (r : RiskLevel) :
  Permutation l l' -> count_level th l r = count_level th l' r.
Proof.
  unfold count_level; induction 1; simpl; try reflexivity.
  - destruct (risk_eqb _ r); simpl; congruence.
  - destruct (risk_eqb (classify th (risk_score x)) r), (risk_eqb (classify th (risk_score y)) r);
      reflexivity.
  - congruence.
Qed.

Lemma findings_count_perm (l l' : list SkillReport) :
  Permutation l l' -> findings_count l = findings_count l'.
Proof. unfold findings_count; induction 1; simpl; lia. Qed.

(** X18: [calculate_repo_risk] does not depend on the order of the reports:
    permuting them (for example, another traversal order of the bundles)
    gives the same verdict and the same summary. *)
Theorem calculate_repo_risk_perm (th : Thresholds) (reps reps' : list SkillReport) :
  Permutation reps reps' -> calculate_repo_risk th reps = calculate_repo_risk th reps'.
Proof.
  intro HP; destruct reps as [|rep0 l].
  - apply Permutation_nil in HP; subst; reflexivity.
  - assert (Hne' : reps' <> []).
    { intros ->; apply Permutation_sym, Permutation_nil in HP; discriminate. }
    rewrite (calculate_repo_risk_levels th (rep0 :: l) ltac:(discriminate)),
            (calculate_repo_risk_levels th _ Hne').
    assert (E : level_counts th (rep0 :: l) = level_counts th reps').
    { unfold level_counts; rewrite !(count_level_perm th _ _ _ HP); reflexivity. }
    rewrite E, (Permutation_length HP), (findings_count_perm _ _ HP); reflexivity.
Qed.

Lemma scan_repo_stats (env : Env) (repo_id : string) (s : ScanState) :
  ss_stats (snd (scan_repo env repo_id s)) = ss_stats s \/
  ss_stats (snd (scan_repo env repo_id s)) = incr_scanned (ss_stats s).
Proof.
  destruct s as [st tr]; scan_cases env repo_id.
  all: first [left; reflexivity | right; reflexivity].
Qed.

Lemma count_outcome_stats (res : Result (string * string * nat)) (st : Stats) :
  let st' := count_outcome res st in
  st_total st' = st_total st /\ st_scanned st' = st_scanned st /\
  st_skipped st' = st_skipped st /\
  st_failed st <= st_failed st' /\
  (forall r, cget (st_by_risk st) r <= cget (st_by_risk st') r) /\
  st_failed st' + counts_total (st_by_risk st') <= S (st_failed st + counts_total (st_by_risk st)).
Proof.
  destruct st as [t sc f sk [a b m l sf u]].
  destruct res as [[[status level] n]|e]; cbv zeta; unfold count_outcome;
    [destruct (String.eqb status "scanned"); [|destruct (String.eqb status "skipped")];
     destruct (risk_of_name level) as [[]|]|];
    cbn; unfold counts_total; cbn; repeat split; try lia; intros []; cbn; lia.
Qed.

Lemma scan_each_stats (env : Env) (zip_files : list string) (s : ScanState) :
  let '(res, s') := scan_each env zip_files s in
  let st := ss_stats s in
  let st' := ss_stats s' in
  res = Ok tt /\ st_total st' = st_total st /\ st_skipped st' = st_skipped st /\
  st_scanned st <= st_scanned st' <= st_scanned st + List.length zip_files /\
  st_failed st <= st_failed st' /\
  (forall r, cget (st_by_risk st) r <= cget (st_by_risk st') r) /\
  st_failed st' + counts_total (st_by_risk st') <=
    st_failed st + counts_total (st_by_risk st) + List.length zip_files.
Proof.
  revert s; induction zip_files as [|zf rest IH]; intro s; [simpl; repeat split; lia|].
  cbn [scan_each].
  pose proof (scan_repo_stats env zf s) as Hs.
  destruct (scan_repo env zf s) as [res s1]; simpl in Hs.
  set (s2 := mkScanState (count_outcome res (ss_stats s1)) (ss_trace s1)).
  specialize (IH s2).
  destruct (scan_each env rest s2) as [res' s'].
  pose proof (count_outcome_stats res (ss_stats s1)) as C; cbv zeta in C.
  destruct C as (C1 & C2 & C3 & C4 & C5 & C6).
  destruct IH as (-> & I1 & I2 & I3 & I4 & I5 & I6); subst s2; simpl in I1, I2, I3, I4, I5, I6.
  set (X := count_outcome res (ss_stats s1)) in *; clearbody X.
  destruct Hs as [E | E]; rewrite E in *;
    destruct (ss_stats s) as [t sc f sk b];
    cbn [incr_scanned st_total st_scanned st_failed st_skipped st_by_risk List.length] in *;
    (split; [reflexivity | repeat split; try lia]);
    intro r; specialize (C5 r); specialize (I5 r); lia.
Qed.

(** X19: [scan_all] returns its statistics dict; [total] is the number of
    archives after the [start_from] and [limit] cuts, [skipped] is left as it
    was, [scanned] grows by at most one per archive, [failed] and every
    [by_risk] count never decrease, and [failed] plus the [by_risk] counts
    grow by at most one per archive.  So the counters of an earlier run on
    the same scanner are kept, and only [total] is overwritten. *)
Theorem scan_all_stats (env : Env) (limit : option nat) (start_from : nat)
  (zip_files : list string) (st : Stats) :
  let n := List.length (match limit with
                        | Some (S _ as k) => firstn k (skipn start_from zip_files)
                        | _ => skipn start_from zip_files
                        end) in
  let '(res, s) := run (scan_all env limit start_from zip_files) st in
  let st' := ss_stats s in
  res = Ok st' /\ st_total st' = n /\ st_skipped st' = st_skipped st /\
  st_scanned st <= st_scanned st' <= st_scanned st + n /\
  st_failed st <= st_failed st' /\
  (forall r, cget (st_by_risk st) r <= cget (st_by_risk st') r) /\
  st_failed st' + counts_total (st_by_risk st') <= st_failed st + counts_total (st_by_risk st) + n.
Proof.
  cbv zeta; unfold run, scan_all, bind, modify_stats.
  set (l := match limit with
            | Some (S _ as k) => firstn k (skipn start_from zip_files)
            | _ => skipn start_from zip_files
            end).
  pose proof (scan_each_stats env l (mkScanState (set_total (List.length l) st) [])) as H.
  destruct (scan_each env l _) as [res s']; simpl in H.
  destruct H as (-> & H1 & H2 & H3 & H4 & H5 & H6).
  destruct st as [t sc f sk b]; simpl in *; repeat split; try lia; exact H5.
Qed.

(** X13: a configuration file whose YAML document is falsy ([null], an empty
    file, [0], [false], an empty string, list or mapping) is replaced by
    [{}], and so is read, like a document that is not a mapping, as a
    configuration where every [Config.get] returns its default. *)
Theorem load_config_falsy_defaults (loaded : json) (key : string) (default : json) :
  (truthy loaded = false \/ forall kvs, loaded <> JDict kvs) ->
  get (load_config loaded) key default = default.
Proof.
  intro H; unfold get, load_config.
  destruct (split_dot key) as [|k ks] eqn:E; [contradiction (split_dot_nonempty key E)|].
  destruct (truthy loaded) eqn:T; [|reflexivity].
  destruct H as [H|H]; [discriminate|].
  destruct loaded; try reflexivity.
  contradiction (H kvs eq_refl).
Qed.

(** X14: when the configuration has no [scanner] mapping (the key is missing,
    [null], or not a mapping), [RepoSecurityScanner.__init__] uses the
    thresholds 8, 6, 4 and 2 for [critical], [high], [medium] and [low]. *)
Theorem scanner_thresholds_default (_config : json) :
  (forall kvs, get _config "scanner" JNull <> JDict kvs) ->
  scanner_thresholds _config =
  (JNum (t_critical default_thresholds), JNum (t_high default_thresholds),
   JNum (t_medium default_thresholds), JNum (t_low default_thresholds)).
Proof.
  intro H; unfold scanner_thresholds, get in *.
  assert (E0 : split_dot "scanner" = ["scanner"]) by reflexivity.
  assert (E1 : split_dot "scanner.thresholds.critical" = ["scanner"; "thresholds"; "critical"])
    by reflexivity.
  assert (E2 : split_dot "scanner.thresholds.high" = ["scanner"; "thresholds"; "high"])
    by reflexivity.
  assert (E3 : split_dot "scanner.thresholds.medium" = ["scanner"; "thresholds"; "medium"])
    by reflexivity.
  assert (E4 : split_dot "scanner.thresholds.low" = ["scanner"; "thresholds"; "low"])
    by reflexivity.
  rewrite E0 in H; rewrite E1, E2, E3, E4.
  destruct _config as [| | | | |kvs]; try reflexivity.
  cbn [get_keys] in H |- *.
  destruct (dict_get kvs "scanner") as [v|]; [|reflexivity].
  destruct v as [| | | | |kvs']; try reflexivity.
  contradiction (H kvs' eq_refl).
Qed.

(** ** Witnesses *)

Lemma download_repo_idempotent_witness :
  let '((ok, repo_id, msg), _, final) := download_repo net_main_empty task_main None in
  ok = true /\
  (ok = true ->
   repo_id = task_repo_id task_main /\
   (exists size, final = Some size /\ (0 < size)%Z /\
      (msg = MsgAlreadyExists size \/ exists d, msg = MsgDownloaded size d)) /\
   forall net', download_repo net' task_main final =
                ((true, task_repo_id task_main, MsgAlreadyExists (zip_size final)), [], final)).
Proof. exact (conj eq_refl (download_repo_idempotent net_main_empty task_main None)). Defined.

(** Both attempts time out, the second one leaving 500 bytes behind. *)
Definition net_partial : Network := fun _ _ _ => mkCurlRun CurlTimeout (Some 500%Z).

Lemma download_repo_failure_leftover_witness :
  let '((ok, _, _), calls, final) := download_repo net_partial task_main None in
  ok = false /\
  (ok = false ->
   calls = [(py_str_opt (task_download_url task_main), None); (fallback_url task_main, None)] /\
   final = cr_file (net_partial 1 (fallback_url task_main) None) /\
   forall size, final = Some size -> (0 < size)%Z ->
     forall net', download_repo net' task_main final =
                  ((true, task_repo_id task_main, MsgAlreadyExists size), [], final)).
Proof. exact (conj eq_refl (download_repo_failure_leftover net_partial task_main None)). Defined.

(** The archive of [task_main] is already there. *)
Definition zips_r1 : ZipStore := fun name => if String.eqb name "r1.zip" then Some 2048%Z else None.

Lemma download_all_skips_existing_witness :
  NoDup (map zip_filename [task_main]) /\
  count_preexisting zips_r1 [task_main] = 1 /\
  count_preexisting zips_r1 [task_main] <=
    ds_skipped (fst (download_all net_main_empty [task_main] None zips_r1)).
Proof.
  assert (H : NoDup (map zip_filename [task_main])) by (repeat constructor; simpl; tauto).
  split; [exact H|]; split; [reflexivity|].
  exact (download_all_skips_existing net_main_empty [task_main] None zips_r1 H).
Defined.

(** A branch whose name contains the text of the skip message. *)
Definition task_odd_branch : RepoTask :=
  mkRepoTask "r4" "owner/repo" (Some "Already exists") (Some "https://example.org/r4.zip") None.

Definition net_ok : Network := fun _ _ _ => mkCurlRun (CurlExit 0) (Some 1000%Z).

Lemma download_all_branch_text_skipped_witness :
  (forall size, (fun _ : string => (None : ZipFile)) (zip_filename task_odd_branch) = Some size ->
                (size <= 0)%Z) /\
  attempt_ok (net_ok 0 (py_str_opt (task_download_url task_odd_branch))
                ((fun _ : string => (None : ZipFile)) (zip_filename task_odd_branch))) = true /\
  py_in "Already exists" (primary_branch task_odd_branch) = true /\
  fst (download_all net_ok [task_odd_branch] None (fun _ => None)) = mkDownloadStats 1 0 0 1.
Proof.
  assert (H1 : forall size, (fun _ : string => (None : ZipFile)) (zip_filename task_odd_branch) =
                            Some size -> (size <= 0)%Z) by discriminate.
  assert (H2 : attempt_ok (net_ok 0 (py_str_opt (task_download_url task_odd_branch))
                ((fun _ : string => (None : ZipFile)) (zip_filename task_odd_branch))) = true)
    by reflexivity.
  assert (H3 : py_in "Already exists" (primary_branch task_odd_branch) = true)
    by (vm_compute; reflexivity).
  split; [exact H1|]; split; [exact H2|]; split; [exact H3|].
  exact (download_all_branch_text_skipped net_ok task_odd_branch (fun _ => None) H1 H2 H3).
Defined.

Lemma _extract_number_str_nat_witness :
  no_digit "openclaw_" = true /\ is_digit "." = false /\
  _extract_number ("openclaw_" ++ str_nat 42 ++ ".zip") = 42.
Proof.
  assert (H1 : no_digit "openclaw_" = true) by (vm_compute; reflexivity).
  assert (H2 : is_digit "." = false) by (vm_compute; reflexivity).
  split; [exact H1|]; split; [exact H2|].
  exact (_extract_number_str_nat "openclaw_" ".zip" 42 H1 H2).
Defined.

(** [paths: {workspace_dir: ./ws}]. *)
Definition config_paths : json := nest ["paths"; "workspace_dir"] (JStr "./ws").

Lemma get_nested_roundtrip_witness :
  ["paths"; "workspace_dir"] <> [] /\ forallb no_dot ["paths"; "workspace_dir"] = true /\
  JStr "./ws" <> JNull /\
  get config_paths "paths.workspace_dir" JNull = JStr "./ws".
Proof.
  assert (H1 : ["paths"; "workspace_dir"] <> []) by discriminate.
  assert (H2 : forallb no_dot ["paths"; "workspace_dir"] = true) by reflexivity.
  assert (H3 : JStr "./ws" <> JNull) by discriminate.
  split; [exact H1|]; split; [exact H2|]; split; [exact H3|].
  exact (get_nested_roundtrip ["paths"; "workspace_dir"] (JStr "./ws") JNull H1 H2 H3).
Defined.

(** [download: {github_token_env: ${GITHUB_TOKEN}}], with the variable set. *)
Definition config_token_ref : json :=
  JDict [("download", JDict [("github_token_env", JStr "${GITHUB_TOKEN}")])].

Definition environ_token : Environ :=
  fun k => if String.eqb k "GITHUB_TOKEN" then Some "ghp_x" else None.

Lemma get_with_env_fallback_string_witness :
  get config_token_ref "download.github_token_env" (JStr "") = JStr "${GITHUB_TOKEN}" /\
  get_with_env_fallback config_token_ref environ_token "download.github_token_env" "GITHUB_TOKEN" ""
  = Ok (JStr "ghp_x").
Proof.
  assert (H : get config_token_ref "download.github_token_env" (JStr "") = JStr "${GITHUB_TOKEN}")
    by (vm_compute; reflexivity).
  split; [exact H|].
  exact (get_with_env_fallback_string config_token_ref environ_token
           "download.github_token_env" "GITHUB_TOKEN" "" "${GITHUB_TOKEN}" H).
Defined.

Lemma get_with_env_fallback_reference_witness :
  get config_token_ref "download.github_token_env" (JStr "") =
    JStr ("${" ++ "GITHUB_TOKEN" ++ "}" ++ "") /\
  "GITHUB_TOKEN" <> "" /\ no_brace "GITHUB_TOKEN" = true /\
  get_with_env_fallback config_token_ref environ_token "download.github_token_env" "GITHUB_TOKEN" ""
  = Ok (JStr (environ_get environ_token "GITHUB_TOKEN" "")).
Proof.
  assert (H1 : get config_token_ref "download.github_token_env" (JStr "") =
                 JStr ("${" ++ "GITHUB_TOKEN" ++ "}" ++ "")) by (vm_compute; reflexivity).
  assert (H2 : "GITHUB_TOKEN" <> "") by discriminate.
  assert (H3 : no_brace "GITHUB_TOKEN" = true) by (vm_compute; reflexivity).
  split; [exact H1|]; split; [exact H2|]; split; [exact H3|].
  exact (get_with_env_fallback_reference config_token_ref environ_token
           "download.github_token_env" "GITHUB_TOKEN" "" "GITHUB_TOKEN" "" H1 H2 H3).
Defined.

Lemma get_risk_dir_levels_witness :
  (forall t, py_lower "Unknown" <> tier_dir t) /\
  (exists e, get_risk_dir ["workspace"] "Unknown" = Exc e).
Proof.
  assert (H : forall t, py_lower "Unknown" <> tier_dir t)
    by (intros t E; destruct t; vm_compute in E; discriminate E).
  split; [exact H|].
  exact (proj1 (proj2 (get_risk_dir_levels ["workspace"] "Unknown")) H).
Defined.

(** An archive whose single top-level entry is the file [README]: its
    extraction leaves a plain file at [repo_dir/r4]. *)
Definition env_single_file : Env :=
  env_of no_reports (ZipOk ["README"]) (File "README") None.

(** The same repository scanned again, with that file in place. *)
Definition env_file_left : Env :=
  mkEnv no_reports (fun _ => TgtFile) (fun _ => ZipOk ["README"]) (fun _ => File "README")
        (fun _ _ => None) (fun _ => true) "2026-10-15T00:00:00" default_thresholds.

Lemma scan_repo_raises_iff_witness :
  (exists e, fst (run (scan_repo env_file_left "r4") stats0) = Exc e) /\
  find_existing env_file_left "r4" = None /\
  (env_target env_file_left "r4" = TgtFile \/
   (extracts env_file_left "r4" = true /\
    find_skill_dirs (env_tree env_file_left "r4") <> [] /\ env_dump_ok env_file_left "r4" = false)).
Proof.
  assert (H : exists e, fst (run (scan_repo env_file_left "r4") stats0) = Exc e)
    by (eexists; vm_compute; reflexivity).
  split; [exact H|].
  exact (proj1 (scan_repo_raises_iff env_file_left "r4" stats0) H).
Defined.

Lemma scan_repo_no_skills_removed_witness :
  find_existing env_single_file "r4" = None /\ extracts env_single_file "r4" = true /\
  find_skill_dirs (env_tree env_single_file "r4") = [] /\
  let tr := ss_trace (snd (run (scan_repo env_single_file "r4") stats0)) in
  fst (run (scan_repo env_single_file "r4") stats0) = Ok ("skipped", "UNKNOWN", 0) /\
  (is_dir (env_tree env_single_file "r4") = true ->
   fs_lookup (fs_after [] tr) (PRepo "r4") = None) /\
  (is_dir (env_tree env_single_file "r4") = false -> env_target env_single_file "r4" = TgtEmpty ->
   fs_lookup (fs_after [] tr) (PRepo "r4") = Some true).
Proof.
  assert (H1 : find_existing env_single_file "r4" = None) by (vm_compute; reflexivity).
  assert (H2 : extracts env_single_file "r4" = true) by (vm_compute; reflexivity).
  assert (H3 : find_skill_dirs (env_tree env_single_file "r4") = []) by (vm_compute; reflexivity).
  split; [exact H1|]; split; [exact H2|]; split; [exact H3|].
  exact (scan_repo_no_skills_removed env_single_file "r4" stats0 [] H1 H2 H3).
Defined.

(** The report [scan_repo] saves for [env_medium]. *)
Definition report_medium : RepoReport :=
  _generate_report "2026-10-15T00:00:00" "r1" (PRepo "r1") MEDIUM
    (SumCounts (mkCounts 0 0 1 0 0 0) 1 1) [mkSkillReport 5 ["eval"] 2%Z].

Lemma saved_report_summary_witness :
  In (EvDump (PReport TMedium (report_file "r1")) report_medium)
     (ss_trace (snd (run (scan_repo env_medium "r1") stats0))) /\
  1 = rr_total_skills report_medium /\
  1 = List.length (rr_all_issues report_medium) /\
  counts_total (mkCounts 0 0 1 0 0 0) = 1 /\
  cget (mkCounts 0 0 1 0 0 0) UNKNOWN = 0 /\
  (exists r, rr_risk_level report_medium = risk_name r /\ 0 < cget (mkCounts 0 0 1 0 0 0) r).
Proof.
  assert (H : In (EvDump (PReport TMedium (report_file "r1")) report_medium)
                 (ss_trace (snd (run (scan_repo env_medium "r1") stats0))))
    by (apply (nth_error_In _ 6); vm_compute; reflexivity).
  split; [exact H|].
  exact (saved_report_summary env_medium "r1" stats0 _ _ H).
Defined.

Lemma calculate_repo_risk_perm_witness :
  Permutation [mkSkillReport 1 [] 0%Z; mkSkillReport 9 ["exec"] 1%Z]
              [mkSkillReport 9 ["exec"] 1%Z; mkSkillReport 1 [] 0%Z] /\
  calculate_repo_risk default_thresholds [mkSkillReport 1 [] 0%Z; mkSkillReport 9 ["exec"] 1%Z] =
  calculate_repo_risk default_thresholds [mkSkillReport 9 ["exec"] 1%Z; mkSkillReport 1 [] 0%Z].
Proof.
  assert (H : Permutation [mkSkillReport 1 [] 0%Z; mkSkillReport 9 ["exec"] 1%Z]
                          [mkSkillReport 9 ["exec"] 1%Z; mkSkillReport 1 [] 0%Z])
    by apply perm_swap.
  split; [exact H|].
  exact (calculate_repo_risk_perm default_thresholds _ _ H).
Defined.

(** A configuration file holding only [download:] settings. *)
Lemma scanner_thresholds_default_witness :
  (forall kvs, get config_token_ref "scanner" JNull <> JDict kvs) /\
  scanner_thresholds config_token_ref =
  (JNum (t_critical default_thresholds), JNum (t_high default_thresholds),
   JNum (t_medium default_thresholds), JNum (t_low default_thresholds)).
Proof.
  assert (H : forall kvs, get config_token_ref "scanner" JNull <> JDict kvs)
    by (intros kvs E; vm_compute in E; discriminate E).
  split; [exact H|].
  exact (scanner_thresholds_default config_token_ref H).
Defined.

Lemma load_config_falsy_defaults_witness :
  (truthy JNull = false \/ forall kvs, JNull <> JDict kvs) /\
  get (load_config JNull) "scanner.max_workers" (JNum 5) = JNum 5.
Proof.
  assert (H : truthy JNull = false \/ forall kvs, JNull <> JDict kvs) by (left; reflexivity).
  split; [exact H|].
  exact (load_config_falsy_defaults JNull "scanner.max_workers" (JNum 5) H).
Defined.
